(** * FenceWise backend ([backend/server.py]): a shallow embedding

    The handlers of the FastAPI application are embedded as pure functions
    over an explicit document store.  Python dictionaries and the fields of
    MongoDB documents are finite maps from field names to values, a
    collection is the list of its documents in insertion order, and a
    handler takes the store and returns the new store together with either
    its response or the exception it raises.  What the environment supplies
    is an argument: the current user resolved by the authorization gate, the
    current time, the identifier the driver gives a new document, and the
    password and token primitives.

    Conventions of the model:
    - a [str] is a string of ASCII characters and an [int] is unbounded;
    - a [float] is the rational number it denotes, so neither the precision
      nor the range of floating point is modelled;
    - a [datetime] is a number of milliseconds;
    - the database behaves as MongoDB documents it: [modified_count] counts
      the documents an update changed, an empty [$set] is a no-op (server
      5.0 and later), values are ordered by the BSON comparison order;
    - a response model accepts a value of the declared type only. *)

From Stdlib Require Import ZArith QArith Qround Qabs Ascii String List Lia Lqa.
From stdpp Require Import base option strings list gmap sorting.

Set Default Proof Using "Type".
Local Open Scope string_scope.
Local Open Scope Z_scope.

(** ** Python strings and [int]

    A [str] is modelled by a Rocq [string] of ASCII characters.  Python
    integers are unbounded, hence [Z]. *)

Module Py.

(** [str.split(sep)] for a one-character separator: always at least one
    piece, empty pieces are kept. *)
Fixpoint split (sep : ascii) (s : string) : list string :=
  match s with
  | EmptyString => [EmptyString]
  | String c rest =>
      if Ascii.eqb c sep then EmptyString :: split sep rest
      else match split sep rest with
           | [] => [String c EmptyString]
           | w :: ws => String c w :: ws
           end
  end.

(** The ASCII characters [int] and [str.strip] treat as white space:
    TAB, LF, VT, FF, CR, the separators 0x1c-0x1f and the space. *)
Definition isspace (c : ascii) : bool :=
  let n := N_of_ascii c in
  ((9 <=? n) && (n <=? 13) || (28 <=? n) && (n <=? 32))%N.

Definition digit_value (c : ascii) : option Z :=
  let n := Z.of_N (N_of_ascii c) in
  if (48 <=? n) && (n <=? 57) then Some (n - 48) else None.

Fixpoint lstrip (s : string) : string :=
  match s with
  | String c rest => if isspace c then lstrip rest else s
  | EmptyString => EmptyString
  end.

Fixpoint rstrip (s : string) : string :=
  match s with
  | String c rest =>
      match rstrip rest with
      | EmptyString => if isspace c then EmptyString else String c EmptyString
      | r => String c r
      end
  | EmptyString => EmptyString
  end.

(** The digits of a decimal literal: single underscores are allowed
    between digits, never doubled and never last. *)
Fixpoint digits_from (acc : Z) (prev_underscore : bool) (s : string) : option Z :=
  match s with
  | EmptyString => if prev_underscore then None else Some acc
  | String c rest =>
      if Ascii.eqb c "_" then
        if prev_underscore then None else digits_from acc true rest
      else
        match digit_value c with
        | Some d => digits_from (10 * acc + d) false rest
        | None => None
        end
  end.

(** A literal has at least one digit and does not start with an underscore. *)
Definition digits (s : string) : option Z :=
  match s with
  | EmptyString => None
  | String c _ => if Ascii.eqb c "_" then None else digits_from 0 false s
  end.

(** [int(s)] in base 10: surrounding white space, an optional sign, then the
    digits.  [None] stands for the [ValueError] it raises. *)
Definition int (s : string) : option Z :=
  match rstrip (lstrip s) with
  | String c rest =>
      if Ascii.eqb c "+" then digits rest
      else if Ascii.eqb c "-" then Z.opp <$> digits rest
      else digits (String c rest)
  | EmptyString => None
  end.

(** [round(x, 2)]: the nearest multiple of 1/100, ties to the even one.
    A float is modelled by the rational it denotes, in lowest terms. *)
Definition round_half_even (q : Q) : Z :=
  let f := Qfloor q in
  match Qcompare (q - inject_Z f) (1 # 2) with
  | Lt => f
  | Gt => f + 1
  | Eq => if Z.even f then f else f + 1
  end.

Definition round2 (q : Q) : Q := Qred (round_half_even (q * 100) # 100).

End Py.

(** ** The hours calculator *)

(** [h, m = map(int, s.split(':'))]: exactly two pieces, both integers. *)
Definition unpack_hm (s : string) : option (Z * Z) :=
  match Py.split ":" s with
  | [a; b] => h ← Py.int a; m ← Py.int b; Some (h, m)
  | _ => None
  end.

(** The body of the [try] block; [None] is any exception it raises. *)
Definition calculate_hours_try (start finish break_time : string) : option Q :=
  '(start_h, start_m) ← unpack_hm start;
  '(finish_h, finish_m) ← unpack_hm finish;
  '(break_h, break_m) ← unpack_hm break_time;
  let start_minutes := start_h * 60 + start_m in
  let finish_minutes := finish_h * 60 + finish_m in
  let break_minutes := break_h * 60 + break_m in
  let work_minutes := finish_minutes - start_minutes - break_minutes in
  Some (Py.round2 (inject_Z work_minutes / 60)).

Definition calculate_hours (start finish break_time : string) : Q :=
  match calculate_hours_try start finish break_time with
  | Some hours => hours
  | None => 0%Q
  end.

(** ** BSON values and documents *)

Module Bson.

(** [bytes.fromhex] skips ASCII white space between bytes. *)
Definition is_ascii_space (c : ascii) : bool :=
  let n := N_of_ascii c in
  ((9 <=? n) && (n <=? 13) || (n =? 32))%N.

(** A hexadecimal digit, in lower case. *)
Definition hex_lower (c : ascii) : option ascii :=
  let n := N_of_ascii c in
  if ((48 <=? n) && (n <=? 57) || (97 <=? n) && (n <=? 102))%N then Some c
  else if ((65 <=? n) && (n <=? 70))%N then Some (ascii_of_N (n + 32))
  else None.

(** [bytes.fromhex(s)], the bytes written back in lower-case hexadecimal
    (two characters a byte); [None] is its [ValueError]. *)
Fixpoint fromhex (s : string) : option string :=
  match s with
  | EmptyString => Some EmptyString
  | String c rest =>
      if is_ascii_space c then fromhex rest
      else
        match hex_lower c, rest with
        | Some hi, String d rest' =>
            match hex_lower d with
            | Some lo => (λ r, String hi (String lo r)) <$> fromhex rest'
            | None => None
            end
        | _, _ => None
        end
  end.

(** An object id is kept as [str(oid)], the lower-case hexadecimal of its
    bytes. *)
Record ObjectId := Oid { oid_hex : string }.

Global Instance ObjectId_eq_dec : EqDecision ObjectId.
Proof. solve_decision. Defined.

(** [ObjectId(s)]: the string must have 24 characters and be accepted by
    [bytes.fromhex]; otherwise [InvalidId] is raised ([None]). *)
Definition ObjectId_of_str (s : string) : option ObjectId :=
  if (String.length s =? 24)%nat then Oid <$> fromhex s else None.

Definition is_valid (s : string) : bool := bool_decide (is_Some (ObjectId_of_str s)).

(** The values the handlers store: [None], floats, strings, object ids,
    booleans, and datetimes (milliseconds since the epoch). *)
Inductive value :=
  | VNull
  | VNum (q : Q)
  | VStr (s : string)
  | VOid (o : ObjectId)
  | VBool (b : bool)
  | VDate (t : Z).

Global Instance Q_eq_dec : EqDecision Q.
Proof. solve_decision. Defined.

Global Instance value_eq_dec : EqDecision value.
Proof. solve_decision. Defined.

(** Python truthiness, as used by [not v]. *)
Definition truthy (v : value) : bool :=
  match v with
  | VNull => false
  | VNum q => negb (Qeq_bool q 0)
  | VStr s => negb (String.eqb s "")
  | VOid _ => true
  | VBool b => b
  | VDate _ => true
  end.

(** The comparison order of BSON, used by [sort]: values of different
    types are ordered by type, values of one type by their natural order. *)
Definition type_rank (v : value) : nat :=
  match v with
  | VNull => 1 | VNum _ => 2 | VStr _ => 3 | VOid _ => 4 | VBool _ => 5 | VDate _ => 6
  end.

Definition leb (v1 v2 : value) : bool :=
  match v1, v2 with
  | VNull, VNull => true
  | VNum a, VNum b => Qle_bool a b
  | VStr a, VStr b => String.leb a b
  | VOid a, VOid b => String.leb (oid_hex a) (oid_hex b)
  | VBool a, VBool b => implb a b
  | VDate a, VDate b => (a <=? b)%Z
  | _, _ => (type_rank v1 <? type_rank v2)%nat
  end.

Definition le (v1 v2 : value) : Prop := leb v1 v2 = true.

Global Instance le_dec : RelDecision le.
Proof. intros v1 v2. unfold le. apply _. Defined.

End Bson.

Export Bson (Oid, oid_hex, value, VNull, VNum, VStr, VOid, VBool, VDate).

(** A Python [dict] with string keys. *)
Abbreviation dict := (gmap string value).

(** [d.get(k)], with [None] for a missing key. *)
Definition dict_get (d : dict) (k : string) : value := default VNull (d !! k).

(** ** The document store *)

Module Mongo.

(** A stored document: its [_id], which the driver assigns on insertion and
    which is always an [ObjectId] here, and its other fields. *)
Record document := Doc { _id : Bson.ObjectId; fields : dict }.

Global Instance document_eq_dec : EqDecision document.
Proof. solve_decision. Defined.

(** A collection holds its documents in insertion order. *)
Abbreviation collection := (list document).

(** The filters the handlers use: [{"_id": oid}], a conjunction of field
    equalities [{k1: v1, ...}] ([{}] matches everything), and [{"$or": [...]}]
    over such conjunctions. *)
Inductive query :=
  | ById (oid : Bson.ObjectId)
  | Fields (conds : list (string * value))
  | Or (alts : list (list (string * value))).

Definition matches_fields (conds : list (string * value)) (d : document) : bool :=
  forallb (λ kv, bool_decide (fields d !! kv.1 = Some kv.2)) conds.

Definition matches (q : query) (d : document) : bool :=
  match q with
  | ById oid => bool_decide (_id d = oid)
  | Fields conds => matches_fields conds d
  | Or alts => existsb (λ conds, matches_fields conds d) alts
  end.

(** [find(q)], in natural order. *)
Definition find (q : query) (c : collection) : list document :=
  List.filter (matches q) c.

(** [find_one(q)]: the first match. *)
Definition find_one (q : query) (c : collection) : option document :=
  head (find q c).

(** The sort key: a missing field sorts as null. *)
Definition sort_key (key : string) (d : document) : value := dict_get (fields d) key.

(** [direction] is [1] (ascending) or [-1] (descending). *)
Definition sort_rel (key : string) (direction : Z) : relation document :=
  λ d1 d2,
    if (0 <=? direction)%Z then Bson.le (sort_key key d1) (sort_key key d2)
    else Bson.le (sort_key key d2) (sort_key key d1).

Global Instance sort_rel_dec key direction : RelDecision (sort_rel key direction).
Proof. intros d1 d2. unfold sort_rel. destruct (0 <=? direction)%Z; apply _. Defined.

(** [cursor.sort(key, direction)] *)
Definition sort (key : string) (direction : Z) (l : list document) : list document :=
  merge_sort (sort_rel key direction) l.

(** [cursor.to_list(n)] *)
Definition to_list (n : nat) (l : list document) : list document := take n l.

(** [insert_one(d)]: the driver gives the document the fresh id [new_id]. *)
Definition insert_one (new_id : Bson.ObjectId) (d : dict) (c : collection) : collection :=
  (c ++ [Doc new_id d])%list.

Record UpdateResult := { matched_count : nat; modified_count : nat }.

(** What [$set] does to a document: the fields of [upd] are written over
    its own. *)
Definition set_fields (upd : dict) (d : document) : document :=
  Doc (_id d) (upd ∪ fields d).

(** [update_one(q, {"$set": upd})]: the first match gets the fields of
    [upd]; [modified_count] counts it only if that changed the document. *)
Fixpoint update_one (q : query) (upd : dict) (c : collection) : collection * UpdateResult :=
  match c with
  | [] => ([], {| matched_count := 0; modified_count := 0 |})
  | d :: rest =>
      if matches q d then
        let d' := set_fields upd d in
        (d' :: rest,
         {| matched_count := 1; modified_count := if decide (d' = d) then 0 else 1 |})
      else
        let '(rest', r) := update_one q upd rest in (d :: rest', r)
  end.

Record DeleteResult := { deleted_count : nat }.

(** [delete_one(q)]: the first match is removed. *)
Fixpoint delete_one (q : query) (c : collection) : collection * DeleteResult :=
  match c with
  | [] => ([], {| deleted_count := 0 |})
  | d :: rest =>
      if matches q d then (rest, {| deleted_count := 1 |})
      else let '(rest', r) := delete_one q rest in (d :: rest', r)
  end.

End Mongo.

Export Mongo (document, Doc, _id, fields, collection).

(** ** Exceptions and handler results *)

(** A handler either returns or raises.  [HTTPException] is what the code
    raises itself; any other exception is not caught by a handler and is
    answered with status 500. *)
Inductive exn :=
  | HTTPException (status_code : Z) (detail : string)
  | Uncaught (exception : string).

Definition http_status (e : exn) : Z :=
  match e with
  | HTTPException status_code _ => status_code
  | Uncaught _ => 500
  end.

Inductive result (A : Type) :=
  | Ok (a : A)
  | Raise (e : exn).
Arguments Ok {A} a.
Arguments Raise {A} e.

Global Instance result_ret : MRet result := λ A a, Ok a.
Global Instance result_bind : MBind result := λ A B f r,
  match r with Ok a => f a | Raise e => Raise e end.

(** [d[k]], raising [KeyError] for a missing key. *)
Definition getitem (d : dict) (k : string) : result value :=
  match d !! k with
  | Some v => Ok v
  | None => Raise (Uncaught "KeyError")
  end.

(** [ObjectId(s)], raising [bson.errors.InvalidId]. *)
Definition ObjectId (s : string) : result Bson.ObjectId :=
  match Bson.ObjectId_of_str s with
  | Some oid => Ok oid
  | None => Raise (Uncaught "InvalidId")
  end.

(** [str(oid)] *)
Definition str (oid : Bson.ObjectId) : string := oid_hex oid.

(** All the items of a list, or the first exception. *)
Fixpoint traverse {A B} (f : A → result B) (l : list A) : result (list B) :=
  match l with
  | [] => Ok []
  | x :: l' => y ← f x; ys ← traverse f l'; Ok (y :: ys)
  end.

(** ** Request and response models *)

Definition of_option (o : option string) : value :=
  match o with Some s => VStr s | None => VNull end.

(** [role: str = "worker"]: the default applies when the body has no role. *)
Record UserRegister := {
  ur_name : string;
  ur_email : string;
  ur_password : string;
  ur_role : string }.

Definition UserRegister_init (name email password : string) (role : option string)
  : UserRegister :=
  {| ur_name := name; ur_email := email; ur_password := password;
     ur_role := default "worker" role |}.

Record UserLogin := { ul_email : string; ul_password : string }.

(** [notes: Optional[str] = ""]: a request may give [null]. *)
Record JobCreate := {
  jc_client_name : string;
  jc_address : string;
  jc_contact : string;
  jc_job_type : string;
  jc_notes : option string }.

Definition JobCreate_dict (j : JobCreate) : dict :=
  list_to_map
    [("client_name", VStr (jc_client_name j));
     ("address", VStr (jc_address j));
     ("contact", VStr (jc_contact j));
     ("job_type", VStr (jc_job_type j));
     ("notes", of_option (jc_notes j))].

Record JobUpdate := {
  ju_client_name : option string;
  ju_address : option string;
  ju_contact : option string;
  ju_job_type : option string;
  ju_notes : option string;
  ju_status : option string;
  ju_signature_url : option string }.

(** [job_data.dict()]: every declared field, [None] where not supplied. *)
Definition JobUpdate_dict (j : JobUpdate) : dict :=
  list_to_map
    [("client_name", of_option (ju_client_name j));
     ("address", of_option (ju_address j));
     ("contact", of_option (ju_contact j));
     ("job_type", of_option (ju_job_type j));
     ("notes", of_option (ju_notes j));
     ("status", of_option (ju_status j));
     ("signature_url", of_option (ju_signature_url j))].

Record TimesheetCreate := {
  tc_date : string;
  tc_start_time : string;
  tc_finish_time : string;
  tc_break_time : string;
  tc_notes : option string;
  tc_job_id : option string }.

Definition TimesheetCreate_dict (t : TimesheetCreate) : dict :=
  list_to_map
    [("date", VStr (tc_date t));
     ("start_time", VStr (tc_start_time t));
     ("finish_time", VStr (tc_finish_time t));
     ("break_time", VStr (tc_break_time t));
     ("notes", of_option (tc_notes t));
     ("job_id", of_option (tc_job_id t))].

(** Validation of the keyword arguments of a response model.  A required
    field must be present with a value of its type; an [Optional] field may
    be missing or [None].  Keys that are not fields are ignored. *)
Module Pydantic.

Definition required_str (kw : dict) (k : string) : result string :=
  match kw !! k with
  | Some (VStr s) => Ok s
  | _ => Raise (Uncaught "ValidationError")
  end.

Definition optional_str (kw : dict) (k : string) : result (option string) :=
  match kw !! k with
  | None | Some VNull => Ok None
  | Some (VStr s) => Ok (Some s)
  | _ => Raise (Uncaught "ValidationError")
  end.

Definition required_datetime (kw : dict) (k : string) : result Z :=
  match kw !! k with
  | Some (VDate t) => Ok t
  | _ => Raise (Uncaught "ValidationError")
  end.

Definition optional_datetime (kw : dict) (k : string) : result (option Z) :=
  match kw !! k with
  | None | Some VNull => Ok None
  | Some (VDate t) => Ok (Some t)
  | _ => Raise (Uncaught "ValidationError")
  end.

Definition required_float (kw : dict) (k : string) : result Q :=
  match kw !! k with
  | Some (VNum q) => Ok q
  | _ => Raise (Uncaught "ValidationError")
  end.

Definition required_bool (kw : dict) (k : string) : result bool :=
  match kw !! k with
  | Some (VBool b) => Ok b
  | _ => Raise (Uncaught "ValidationError")
  end.

End Pydantic.

Record UserResponse := {
  u_id : string;
  u_name : string;
  u_email : string;
  u_role : string;
  u_created_at : Z }.

Record TokenResponse := {
  access_token : string;
  token_type : string;
  user : UserResponse }.

Record JobResponse := {
  j_id : string;
  j_client_name : string;
  j_address : string;
  j_contact : string;
  j_job_type : string;
  j_notes : string;
  j_status : string;
  j_created_by : string;
  j_created_by_name : string;
  j_created_at : Z;
  j_completed_at : option Z;
  j_signature_url : option string }.

Definition JobResponse_init (kw : dict) : result JobResponse :=
  id ← Pydantic.required_str kw "id";
  client_name ← Pydantic.required_str kw "client_name";
  address ← Pydantic.required_str kw "address";
  contact ← Pydantic.required_str kw "contact";
  job_type ← Pydantic.required_str kw "job_type";
  notes ← Pydantic.required_str kw "notes";
  status ← Pydantic.required_str kw "status";
  created_by ← Pydantic.required_str kw "created_by";
  created_by_name ← Pydantic.required_str kw "created_by_name";
  created_at ← Pydantic.required_datetime kw "created_at";
  completed_at ← Pydantic.optional_datetime kw "completed_at";
  signature_url ← Pydantic.optional_str kw "signature_url";
  Ok {| j_id := id; j_client_name := client_name; j_address := address;
        j_contact := contact; j_job_type := job_type; j_notes := notes;
        j_status := status; j_created_by := created_by;
        j_created_by_name := created_by_name; j_created_at := created_at;
        j_completed_at := completed_at; j_signature_url := signature_url |}.

Record TimesheetResponse := {
  t_id : string;
  t_user_id : string;
  t_user_name : string;
  t_date : string;
  t_start_time : string;
  t_finish_time : string;
  t_break_time : string;
  t_notes : string;
  t_total_hours : Q;
  t_job_id : option string;
  t_approved : bool;
  t_created_at : Z }.

Definition TimesheetResponse_init (kw : dict) : result TimesheetResponse :=
  id ← Pydantic.required_str kw "id";
  user_id ← Pydantic.required_str kw "user_id";
  user_name ← Pydantic.required_str kw "user_name";
  date ← Pydantic.required_str kw "date";
  start_time ← Pydantic.required_str kw "start_time";
  finish_time ← Pydantic.required_str kw "finish_time";
  break_time ← Pydantic.required_str kw "break_time";
  notes ← Pydantic.required_str kw "notes";
  total_hours ← Pydantic.required_float kw "total_hours";
  job_id ← Pydantic.optional_str kw "job_id";
  approved ← Pydantic.required_bool kw "approved";
  created_at ← Pydantic.required_datetime kw "created_at";
  Ok {| t_id := id; t_user_id := user_id; t_user_name := user_name;
        t_date := date; t_start_time := start_time; t_finish_time := finish_time;
        t_break_time := break_time; t_notes := notes; t_total_hours := total_hours;
        t_job_id := job_id; t_approved := approved; t_created_at := created_at |}.

Record MessageResponse := {
  m_id : string;
  m_from_id : string;
  m_from_name : string;
  m_to : string;
  m_message : string;
  m_image_url : option string;
  m_timestamp : Z }.

Definition MessageResponse_init (kw : dict) : result MessageResponse :=
  id ← Pydantic.required_str kw "id";
  from_id ← Pydantic.required_str kw "from_id";
  from_name ← Pydantic.required_str kw "from_name";
  to ← Pydantic.required_str kw "to";
  message ← Pydantic.required_str kw "message";
  image_url ← Pydantic.optional_str kw "image_url";
  timestamp ← Pydantic.required_datetime kw "timestamp";
  Ok {| m_id := id; m_from_id := from_id; m_from_name := from_name; m_to := to;
        m_message := message; m_image_url := image_url; m_timestamp := timestamp |}.

(** [doc["id"] = str(doc.pop("_id"))]: the dictionary passed to a response
    model. *)
Definition with_id (d : document) : dict := <["id" := VStr (str (_id d))]> (fields d).

(** ** The database handle *)

Record database := {
  users : collection;
  jobs : collection;
  timesheets : collection;
  messages : collection;
  photos : collection }.

Definition set_users (c : collection) (db : database) : database :=
  {| users := c; jobs := jobs db; timesheets := timesheets db;
     messages := messages db; photos := photos db |}.

Definition set_jobs (c : collection) (db : database) : database :=
  {| users := users db; jobs := c; timesheets := timesheets db;
     messages := messages db; photos := photos db |}.

Definition set_timesheets (c : collection) (db : database) : database :=
  {| users := users db; jobs := jobs db; timesheets := c;
     messages := messages db; photos := photos db |}.

Definition set_messages (c : collection) (db : database) : database :=
  {| users := users db; jobs := jobs db; timesheets := timesheets db;
     messages := c; photos := photos db |}.

(** ** Handlers *)

Definition is_elevated (role : value) : bool :=
  bool_decide (role ∈ [VStr "admin"; VStr "supervisor"]).

Definition UserResponse_init (kw : dict) : result UserResponse :=
  id ← Pydantic.required_str kw "id";
  name ← Pydantic.required_str kw "name";
  email ← Pydantic.required_str kw "email";
  role ← Pydantic.required_str kw "role";
  created_at ← Pydantic.required_datetime kw "created_at";
  Ok {| u_id := id; u_name := name; u_email := email; u_role := role;
        u_created_at := created_at |}.

Section Auth.

(** The password and token primitives are external: [pwd_context.hash],
    [pwd_context.verify], [jwt.encode] with the server's key, and
    [jwt.decode] at a given time ([None] is a [PyJWTError]: bad
    signature, malformed or expired token). *)
Variable hash_password : string → string.
Variable verify_password : string → string → bool.
Variable jwt_encode : dict → string.
Variable jwt_decode : Z → string → option dict.

Definition ACCESS_TOKEN_EXPIRE_MINUTES : Z := 60 * 24 * 7.

Definition create_access_token (now : Z) (data : dict) : string :=
  let expire := now + ACCESS_TOKEN_EXPIRE_MINUTES * 60 * 1000 in
  jwt_encode (<["exp" := VDate expire]> data).

Definition get_current_user (db : database) (now : Z) (token : string)
  : result document :=
  match jwt_decode now token with
  | None => Raise (HTTPException 401 "Invalid authentication credentials")
  | Some payload =>
      match dict_get payload "sub" with
      | VNull => Raise (HTTPException 401 "Invalid authentication credentials")
      | VStr user_id =>
          oid ← ObjectId user_id;
          match Mongo.find_one (Mongo.ById oid) (users db) with
          | None => Raise (HTTPException 401 "User not found")
          | Some user => Ok user
          end
      | _ => Raise (Uncaught "TypeError")
      end
  end.

Definition register (db : database) (new_id : Bson.ObjectId) (now : Z)
    (user_data : UserRegister) : database * result TokenResponse :=
  match Mongo.find_one (Mongo.Fields [("email", VStr (ur_email user_data))]) (users db) with
  | Some existing_user => (db, Raise (HTTPException 400 "Email already registered"))
  | None =>
      let user_dict : dict :=
        list_to_map
          [("name", VStr (ur_name user_data));
           ("email", VStr (ur_email user_data));
           ("password", VStr (hash_password (ur_password user_data)));
           ("role", VStr (ur_role user_data));
           ("created_at", VDate now);
           ("active", VBool true)] in
      let db' := set_users (Mongo.insert_one new_id user_dict (users db)) db in
      let user_id := str new_id in
      let access_token := create_access_token now {["sub" := VStr user_id]} in
      let user_response :=
        {| u_id := user_id; u_name := ur_name user_data;
           u_email := ur_email user_data; u_role := ur_role user_data;
           u_created_at := now |} in
      (db', Ok {| access_token := access_token; token_type := "bearer";
                  user := user_response |})
  end.

Definition login (db : database) (now : Z) (credentials : UserLogin)
  : result TokenResponse :=
  match Mongo.find_one (Mongo.Fields [("email", VStr (ul_email credentials))]) (users db) with
  | None => Raise (HTTPException 401 "Invalid email or password")
  | Some user =>
      hashed ← getitem (fields user) "password";
      match hashed with
      | VStr hashed_password =>
          if negb (verify_password (ul_password credentials) hashed_password) then
            Raise (HTTPException 401 "Invalid email or password")
          else if negb (Bson.truthy (default (VBool true) (fields user !! "active"))) then
            Raise (HTTPException 403 "Account is suspended")
          else
            let access_token :=
              create_access_token now {["sub" := VStr (str (_id user))]} in
            name ← getitem (fields user) "name";
            email ← getitem (fields user) "email";
            role ← getitem (fields user) "role";
            created_at ← getitem (fields user) "created_at";
            user_response ←
              UserResponse_init
                (list_to_map [("id", VStr (str (_id user))); ("name", name);
                              ("email", email); ("role", role);
                              ("created_at", created_at)]);
            Ok {| access_token := access_token; token_type := "bearer";
                  user := user_response |}
      | _ => Raise (Uncaught "TypeError")
      end
  end.


End Auth.

Definition create_job (db : database) (new_id : Bson.ObjectId) (now : Z)
    (job_data : JobCreate) (current_user : document) : database * result JobResponse :=
  match getitem (fields current_user) "name" with
  | Raise e => (db, Raise e)
  | Ok created_by_name =>
      let job_dict : dict :=
        list_to_map
          [("status", VStr "pending");
           ("created_by", VStr (str (_id current_user)));
           ("created_by_name", created_by_name);
           ("created_at", VDate now);
           ("completed_at", VNull);
           ("signature_url", VNull)]
        ∪ JobCreate_dict job_data in
      let db' := set_jobs (Mongo.insert_one new_id job_dict (jobs db)) db in
      (db', JobResponse_init (<["id" := VStr (str new_id)]> job_dict))
  end.

Definition get_jobs (db : database) (current_user : document)
  : result (list JobResponse) :=
  role ← getitem (fields current_user) "role";
  let query :=
    if is_elevated role then Mongo.Fields []
    else Mongo.Fields [("created_by", VStr (str (_id current_user)))] in
  let jobs := Mongo.to_list 1000 (Mongo.sort "created_at" (-1) (Mongo.find query (jobs db))) in
  traverse (λ job, JobResponse_init (with_id job)) jobs.

Definition get_job (db : database) (job_id : string) (current_user : document)
  : result JobResponse :=
  oid ← ObjectId job_id;
  match Mongo.find_one (Mongo.ById oid) (jobs db) with
  | None => Raise (HTTPException 404 "Job not found")
  | Some job => JobResponse_init (with_id job)
  end.

(** [{k: v for k, v in job_data.dict().items() if v is not None}], with
    [completed_at] added on the first completion. *)
Definition update_data_of (job : document) (job_data : JobUpdate) (now : Z) : dict :=
  let update_data := filter (λ kv, kv.2 ≠ VNull) (JobUpdate_dict job_data) in
  if bool_decide (dict_get update_data "status" = VStr "completed")
     && negb (Bson.truthy (dict_get (fields job) "completed_at"))
  then <["completed_at" := VDate now]> update_data
  else update_data.

(** An empty [$set] is accepted by the server and changes nothing. *)
Definition update_job (db : database) (job_id : string) (job_data : JobUpdate)
    (current_user : document) (now : Z) : database * result JobResponse :=
  match ObjectId job_id with
  | Raise e => (db, Raise e)
  | Ok oid =>
      match Mongo.find_one (Mongo.ById oid) (jobs db) with
      | None => (db, Raise (HTTPException 404 "Job not found"))
      | Some job =>
          let authorized : result bool :=
            role ← getitem (fields current_user) "role";
            if is_elevated role then Ok true
            else
              created_by ← getitem (fields job) "created_by";
              Ok (bool_decide (created_by = VStr (str (_id current_user)))) in
          match authorized with
          | Raise e => (db, Raise e)
          | Ok false => (db, Raise (HTTPException 403 "Not authorized"))
          | Ok true =>
              let update_data := update_data_of job job_data now in
              let jobs' := (Mongo.update_one (Mongo.ById oid) update_data (jobs db)).1 in
              let db' := set_jobs jobs' db in
              match Mongo.find_one (Mongo.ById oid) jobs' with
              | None => (db', Raise (Uncaught "AttributeError"))
              | Some updated_job => (db', JobResponse_init (with_id updated_job))
              end
          end
      end
  end.

Definition create_timesheet (db : database) (new_id : Bson.ObjectId) (now : Z)
    (timesheet_data : TimesheetCreate) (current_user : document)
  : database * result TimesheetResponse :=
  let total_hours :=
    calculate_hours (tc_start_time timesheet_data) (tc_finish_time timesheet_data)
                    (tc_break_time timesheet_data) in
  match getitem (fields current_user) "name" with
  | Raise e => (db, Raise e)
  | Ok user_name =>
      let timesheet_dict : dict :=
        list_to_map
          [("user_id", VStr (str (_id current_user)));
           ("user_name", user_name);
           ("total_hours", VNum total_hours);
           ("approved", VBool false);
           ("created_at", VDate now)]
        ∪ TimesheetCreate_dict timesheet_data in
      let db' := set_timesheets (Mongo.insert_one new_id timesheet_dict (timesheets db)) db in
      (db', TimesheetResponse_init (<["id" := VStr (str new_id)]> timesheet_dict))
  end.


Definition approve_timesheet (db : database) (timesheet_id : string)
    (current_user : document) : database * result string :=
  match getitem (fields current_user) "role" with
  | Raise e => (db, Raise e)
  | Ok role =>
      if negb (is_elevated role) then (db, Raise (HTTPException 403 "Not authorized"))
      else
        match ObjectId timesheet_id with
        | Raise e => (db, Raise e)
        | Ok oid =>
            let '(timesheets', result) :=
              Mongo.update_one (Mongo.ById oid) {["approved" := VBool true]} (timesheets db) in
            let db' := set_timesheets timesheets' db in
            if (Mongo.modified_count result =? 0)%nat then
              (db', Raise (HTTPException 404 "Timesheet not found"))
            else (db', Ok "Timesheet approved")
        end
  end.

Definition get_messages (db : database) (channel : string) (current_user : document)
  : result (list MessageResponse) :=
  let query :=
    if String.eqb channel "team" then Mongo.Fields [("to", VStr "team")]
    else
      let user_id := str (_id current_user) in
      Mongo.Or [[("from_id", VStr user_id); ("to", VStr channel)];
                [("from_id", VStr channel); ("to", VStr user_id)]] in
  let messages :=
    Mongo.to_list 1000 (Mongo.sort "timestamp" 1 (Mongo.find query (messages db))) in
  traverse (λ msg, MessageResponse_init (with_id msg)) messages.

(** ** The other handlers *)

Record MessageCreate := {
  mc_to : string;
  mc_message : string;
  mc_image_url : option string }.

(** [caption: Optional[str] = ""]: a request may give [null]. *)
Record PhotoUpload := {
  pu_job_id : string;
  pu_image_base64 : string;
  pu_caption : option string }.

Record PhotoResponse := {
  p_id : string;
  p_job_id : string;
  p_user_id : string;
  p_user_name : string;
  p_image_base64 : string;
  p_caption : string;
  p_uploaded_at : Z }.

Definition PhotoResponse_init (kw : dict) : result PhotoResponse :=
  id ← Pydantic.required_str kw "id";
  job_id ← Pydantic.required_str kw "job_id";
  user_id ← Pydantic.required_str kw "user_id";
  user_name ← Pydantic.required_str kw "user_name";
  image_base64 ← Pydantic.required_str kw "image_base64";
  caption ← Pydantic.required_str kw "caption";
  uploaded_at ← Pydantic.required_datetime kw "uploaded_at";
  Ok {| p_id := id; p_job_id := job_id; p_user_id := user_id;
        p_user_name := user_name; p_image_base64 := image_base64;
        p_caption := caption; p_uploaded_at := uploaded_at |}.

Definition set_photos (c : collection) (db : database) : database :=
  {| users := users db; jobs := jobs db; timesheets := timesheets db;
     messages := messages db; photos := c |}.

Definition delete_job (db : database) (job_id : string) (current_user : document)
  : database * result string :=
  match getitem (fields current_user) "role" with
  | Raise e => (db, Raise e)
  | Ok role =>
      if negb (bool_decide (role = VStr "admin")) then
        (db, Raise (HTTPException 403 "Not authorized"))
      else
        match ObjectId job_id with
        | Raise e => (db, Raise e)
        | Ok oid =>
            let '(jobs', result) := Mongo.delete_one (Mongo.ById oid) (jobs db) in
            let db' := set_jobs jobs' db in
            if (Mongo.deleted_count result =? 0)%nat then
              (db', Raise (HTTPException 404 "Job not found"))
            else (db', Ok "Job deleted successfully")
        end
  end.

Definition send_message (db : database) (new_id : Bson.ObjectId) (now : Z)
    (message_data : MessageCreate) (current_user : document)
  : database * result MessageResponse :=
  match getitem (fields current_user) "name" with
  | Raise e => (db, Raise e)
  | Ok from_name =>
      let message_dict : dict :=
        list_to_map
          [("from_id", VStr (str (_id current_user)));
           ("from_name", from_name);
           ("to", VStr (mc_to message_data));
           ("message", VStr (mc_message message_data));
           ("image_url", of_option (mc_image_url message_data));
           ("timestamp", VDate now)] in
      let db' := set_messages (Mongo.insert_one new_id message_dict (messages db)) db in
      (db', MessageResponse_init (<["id" := VStr (str new_id)]> message_dict))
  end.

Definition upload_photo (db : database) (new_id : Bson.ObjectId) (now : Z)
    (photo_data : PhotoUpload) (current_user : document)
  : database * result PhotoResponse :=
  match ObjectId (pu_job_id photo_data) with
  | Raise e => (db, Raise e)
  | Ok oid =>
      match Mongo.find_one (Mongo.ById oid) (jobs db) with
      | None => (db, Raise (HTTPException 404 "Job not found"))
      | Some job =>
          match getitem (fields current_user) "name" with
          | Raise e => (db, Raise e)
          | Ok user_name =>
              let photo_dict : dict :=
                list_to_map
                  [("job_id", VStr (pu_job_id photo_data));
                   ("user_id", VStr (str (_id current_user)));
                   ("user_name", user_name);
                   ("image_base64", VStr (pu_image_base64 photo_data));
                   ("caption", of_option (pu_caption photo_data));
                   ("uploaded_at", VDate now)] in
              let db' := set_photos (Mongo.insert_one new_id photo_dict (photos db)) db in
              (db', PhotoResponse_init (<["id" := VStr (str new_id)]> photo_dict))
          end
      end
  end.

Definition get_job_photos (db : database) (job_id : string) (current_user : document)
  : result (list PhotoResponse) :=
  let photos :=
    Mongo.to_list 1000
      (Mongo.sort "uploaded_at" (-1)
         (Mongo.find (Mongo.Fields [("job_id", VStr job_id)]) (photos db))) in
  traverse (λ photo, PhotoResponse_init (with_id photo)) photos.

Definition get_users (db : database) (current_user : document)
  : result (list UserResponse) :=
  role ← getitem (fields current_user) "role";
  if negb (bool_decide (role = VStr "admin")) then
    Raise (HTTPException 403 "Admin only")
  else
    let users := Mongo.to_list 1000 (Mongo.find (Mongo.Fields []) (users db)) in
    traverse
      (λ user,
         name ← getitem (fields user) "name";
         email ← getitem (fields user) "email";
         role ← getitem (fields user) "role";
         created_at ← getitem (fields user) "created_at";
         UserResponse_init
           (list_to_map [("id", VStr (str (_id user))); ("name", name);
                         ("email", email); ("role", role);
                         ("created_at", created_at)]))
      users.

(** [suspend_user] and [activate_user] differ in the flag they write. *)
Definition set_active (active : bool) (message : string)
    (db : database) (user_id : string) (current_user : document)
  : database * result string :=
  match getitem (fields current_user) "role" with
  | Raise e => (db, Raise e)
  | Ok role =>
      if negb (bool_decide (role = VStr "admin")) then
        (db, Raise (HTTPException 403 "Admin only"))
      else
        match ObjectId user_id with
        | Raise e => (db, Raise e)
        | Ok oid =>
            let users' :=
              (Mongo.update_one (Mongo.ById oid) {["active" := VBool active]} (users db)).1 in
            (set_users users' db, Ok message)
        end
  end.

Definition suspend_user := set_active false "User suspended".
Definition activate_user := set_active true "User activated".

(** [count_documents(q)] *)
Definition count_documents (q : Mongo.query) (c : collection) : nat :=
  length (Mongo.find q c).

Definition get_dashboard_stats (db : database) (current_user : document)
  : result (gmap string nat) :=
  role ← getitem (fields current_user) "role";
  if bool_decide (role = VStr "admin") then
    Ok (list_to_map
          [("total_jobs", count_documents (Mongo.Fields []) (jobs db));
           ("pending_jobs",
            count_documents (Mongo.Fields [("status", VStr "pending")]) (jobs db));
           ("active_jobs",
            count_documents (Mongo.Fields [("status", VStr "active")]) (jobs db));
           ("completed_jobs",
            count_documents (Mongo.Fields [("status", VStr "completed")]) (jobs db));
           ("total_users", count_documents (Mongo.Fields []) (users db));
           ("pending_timesheets",
            count_documents (Mongo.Fields [("approved", VBool false)]) (timesheets db))])
  else
    let user_id := str (_id current_user) in
    Ok (list_to_map
          [("my_jobs",
            count_documents (Mongo.Fields [("created_by", VStr user_id)]) (jobs db));
           ("my_pending_jobs",
            count_documents
              (Mongo.Fields [("created_by", VStr user_id); ("status", VStr "pending")])
              (jobs db));
           ("my_timesheets",
            count_documents (Mongo.Fields [("user_id", VStr user_id)]) (timesheets db))]).

(** ** The hours calculator as the specification words it

    A clock time is an hour numeral, a colon and a minute numeral; it stands
    for the minutes since midnight.  The worked time in minutes is converted
    to hours and rounded to the nearest hundredth. *)

Module HoursSpec.

(** The text before and after the first separator. *)
Fixpoint partition_at (sep : ascii) (s : string) : option (string * string) :=
  match s with
  | EmptyString => None
  | String c rest =>
      if Ascii.eqb c sep then Some (EmptyString, rest)
      else (λ ab, (String c ab.1, ab.2)) <$> partition_at sep rest
  end.

Definition minutes_since_midnight (s : string) : option Z :=
  hm ← partition_at ":" s;
  h ← Py.int hm.1;
  m ← Py.int hm.2;
  Some (60 * h + m).

(** The nearest multiple of 1/100. *)
Definition nearest_hundredth (q : Q) : Q :=
  Qred (Qfloor (q * 100 + (1 # 2)) # 100).

Definition hours (start finish break_time : string) : Q :=
  match minutes_since_midnight start,
        minutes_since_midnight finish,
        minutes_since_midnight break_time with
  | Some startMinutes, Some finishMinutes, Some breakMinutes =>
      nearest_hundredth (inject_Z (finishMinutes - startMinutes - breakMinutes) / 60)
  | _, _, _ => 0%Q
  end.

End HoursSpec.

(** The dictionaries built from a request are not to be unfolded by [simpl]. *)
Global Arguments JobUpdate_dict : simpl never.
Global Arguments TimesheetCreate_dict : simpl never.
Global Arguments update_data_of : simpl never.
Global Arguments calculate_hours : simpl never.

(** ** Auxiliary definitions for the statements *)


(** The HTTP status a client sees when the handler raises. *)
Definition status_of {A} (r : result A) : option Z :=
  match r with
  | Ok _ => None
  | Raise e => Some (http_status e)
  end.

(** The stored job with a given id, and its completion timestamp. *)
Definition job_by_id (db : database) (oid : Bson.ObjectId) : option document :=
  Mongo.find_one (Mongo.ById oid) (jobs db).

Definition completed_at (job : document) : value :=
  dict_get (fields job) "completed_at".

(** The value a payload supplies for a field, if it supplies one. *)
Definition payload_field (job_data : JobUpdate) (k : string) : option string :=
  match JobUpdate_dict job_data !! k with
  | Some (VStr s) => Some s
  | _ => None
  end.

(** The fields a payload can supply. *)
Definition JobUpdate_fields : list string :=
  ["client_name"; "address"; "contact"; "job_type"; "notes"; "status"; "signature_url"].

(** The caller may update the job: an admin, a supervisor, or its creator. *)
Definition may_update (current_user job : document) : Prop :=
  ∃ role, fields current_user !! "role" = Some role
    ∧ (role = VStr "admin" ∨ role = VStr "supervisor"
       ∨ fields job !! "created_by" = Some (VStr (str (_id current_user)))).

(** The condition under which an update stamps the completion time. *)
Definition stamps (job : document) (job_data : JobUpdate) : bool :=
  bool_decide (ju_status job_data = Some "completed")
  && negb (Bson.truthy (completed_at job)).

(** A sequence of update requests, run one after the other; failed requests
    leave the store as it is. *)
Record update_request := {
  req_job_id : string;
  req_job_data : JobUpdate;
  req_user : document;
  req_now : Z }.

Definition run_updates (db : database) (reqs : list update_request) : database :=
  fold_left
    (λ db r, (update_job db (req_job_id r) (req_job_data r) (req_user r) (req_now r)).1)
    reqs db.

Definition oldest_first (a b : MessageResponse) : Prop := m_timestamp a ≤ m_timestamp b.

(** The records a stored document must have the shape of to be sent back:
    the response model accepts it. *)
Definition valid_job (d : document) : Prop :=
  ∃ r, JobResponse_init (with_id d) = Ok r.
Definition valid_timesheet (d : document) : Prop :=
  ∃ r, TimesheetResponse_init (with_id d) = Ok r.
Definition valid_message (d : document) : Prop :=
  ∃ r, MessageResponse_init (with_id d) = Ok r.

(** Elevated roles, and who owns which record. *)
Definition elevated (role : value) : Prop :=
  role = VStr "admin" ∨ role = VStr "supervisor".
Definition created_by (user_id : string) (d : document) : Prop :=
  fields d !! "created_by" = Some (VStr user_id).
Definition attributed_to (user_id : string) (d : document) : Prop :=
  fields d !! "user_id" = Some (VStr user_id).

(** Broadcast messages, and the messages two users sent each other. *)
Definition broadcast (d : document) : Prop :=
  fields d !! "to" = Some (VStr "team").
Definition exchanged (a b : string) (d : document) : Prop :=
  (fields d !! "from_id" = Some (VStr a) ∧ fields d !! "to" = Some (VStr b))
  ∨ (fields d !! "from_id" = Some (VStr b) ∧ fields d !! "to" = Some (VStr a)).

Global Instance elevated_dec role : Decision (elevated role).
Proof. unfold elevated. apply _. Defined.
Global Instance created_by_dec user_id d : Decision (created_by user_id d).
Proof. unfold created_by. apply _. Defined.
Global Instance attributed_to_dec user_id d : Decision (attributed_to user_id d).
Proof. unfold attributed_to. apply _. Defined.
Global Instance broadcast_dec d : Decision (broadcast d).
Proof. unfold broadcast. apply _. Defined.
Global Instance exchanged_dec a b d : Decision (exchanged a b d).
Proof. unfold exchanged. apply _. Defined.

(** [shown] is what a list operation shows of the [selected] documents: all
    of them put in order by [key], cut off after 1000. *)
Definition listing (key : string) (direction : Z) (selected shown : list document)
  : Prop :=
  ∃ sorted, sorted ≡ₚ selected
    ∧ Sorted (Mongo.sort_rel key direction) sorted
    ∧ shown = take 1000 sorted.

(** ** Sample data *)

Module Sample.

Definition no_password_hash (password : string) : string := password.
Definition check_password (plain hashed : string) : bool := String.eqb plain hashed.

(** A toy token codec: the token is the subject itself and never expires. *)
Definition encode (payload : dict) : string :=
  match payload !! "sub" with Some (VStr s) => s | _ => "" end.
Definition decode (now : Z) (token : string) : option dict :=
  Some {["sub" := VStr token]}.

Definition admin_id : Bson.ObjectId := Oid "aaaaaaaaaaaaaaaaaaaaaaaa".
Definition supervisor_id : Bson.ObjectId := Oid "bbbbbbbbbbbbbbbbbbbbbbbb".
Definition worker_id : Bson.ObjectId := Oid "cccccccccccccccccccccccc".
Definition other_id : Bson.ObjectId := Oid "dddddddddddddddddddddddd".

Definition user_doc (id : Bson.ObjectId) (name email role : string) (active : bool)
  : document :=
  Doc id (list_to_map [("name", VStr name); ("email", VStr email);
                       ("password", VStr "secret"); ("role", VStr role);
                       ("created_at", VDate 0); ("active", VBool active)]).

Definition admin : document := user_doc admin_id "Ada" "ada@example.com" "admin" true.
Definition supervisor : document :=
  user_doc supervisor_id "Sam" "sam@example.com" "supervisor" true.
Definition worker : document := user_doc worker_id "Wes" "wes@example.com" "worker" true.
Definition suspended : document := user_doc other_id "Sue" "sue@example.com" "worker" false.

Definition job_doc (id : Bson.ObjectId) (creator : Bson.ObjectId) (notes : value)
    (created : Z) : document :=
  Doc id (list_to_map [("client_name", VStr "Client"); ("address", VStr "1 Main St");
                       ("contact", VStr "555-1234"); ("job_type", VStr "Standard");
                       ("notes", notes); ("status", VStr "pending");
                       ("created_by", VStr (str creator));
                       ("created_by_name", VStr "Wes"); ("created_at", VDate created);
                       ("completed_at", VNull); ("signature_url", VNull)]).

Definition job1_id : Bson.ObjectId := Oid "000000000000000000000001".
Definition job2_id : Bson.ObjectId := Oid "000000000000000000000002".
Definition job1 : document := job_doc job1_id worker_id (VStr "gate") 10.
Definition job2 : document := job_doc job2_id other_id (VStr "") 20.

Definition timesheet_doc (id owner : Bson.ObjectId) (date : string) (approved : bool)
  : document :=
  Doc id (list_to_map [("date", VStr date); ("start_time", VStr "08:00");
                       ("finish_time", VStr "17:00"); ("break_time", VStr "01:00");
                       ("notes", VStr ""); ("job_id", VNull);
                       ("user_id", VStr (str owner)); ("user_name", VStr "Wes");
                       ("total_hours", VNum 8); ("approved", VBool approved);
                       ("created_at", VDate 30)]).

Definition sheet1_id : Bson.ObjectId := Oid "0123456789abcdef01234567".
Definition sheet1 : document := timesheet_doc sheet1_id worker_id "2025-01-15" false.
Definition sheet2 : document :=
  timesheet_doc (Oid "0123456789abcdef01234568") other_id "2025-01-16" true.

Definition message_doc (id : Bson.ObjectId) (from to : string) (time : Z) : document :=
  Doc id (list_to_map [("from_id", VStr from); ("from_name", VStr "Wes");
                       ("to", VStr to); ("message", VStr "hello");
                       ("image_url", VNull); ("timestamp", VDate time)]).

Definition msg1 : document :=
  message_doc (Oid "111111111111111111111111") (str worker_id) "team" 5.
Definition msg2 : document :=
  message_doc (Oid "222222222222222222222222") (str worker_id) (str other_id) 3.
Definition msg3 : document :=
  message_doc (Oid "333333333333333333333333") (str other_id) (str worker_id) 4.

Definition db : database :=
  {| users := [admin; supervisor; worker; suspended];
     jobs := [job1; job2];
     timesheets := [sheet1; sheet2];
     messages := [msg1; msg2; msg3];
     photos := [] |}.

Definition job_request_null_notes : JobCreate :=
  {| jc_client_name := "Client"; jc_address := "1 Main St"; jc_contact := "555-1234";
     jc_job_type := "Standard"; jc_notes := None |}.

Definition complete : JobUpdate :=
  {| ju_client_name := None; ju_address := None; ju_contact := None;
     ju_job_type := None; ju_notes := None; ju_status := Some "completed";
     ju_signature_url := None |}.


Definition new_sheet : TimesheetCreate :=
  {| tc_date := "2025-02-01"; tc_start_time := "17:00"; tc_finish_time := "08:00";
     tc_break_time := "00:00"; tc_notes := Some ""; tc_job_id := None |}.

End Sample.

(** ** Auxiliary definitions for the further properties *)

(** How often a character occurs in a string. *)
Fixpoint occurrences (c : ascii) (s : string) : nat :=
  match s with
  | EmptyString => 0
  | String c' rest => (if Ascii.eqb c' c then 1 else 0) + occurrences c rest
  end.

(** How many characters [bytes.fromhex] skips. *)
Fixpoint skipped_spaces (s : string) : nat :=
  match s with
  | EmptyString => 0
  | String c rest => (if Bson.is_ascii_space c then 1 else 0) + skipped_spaces rest
  end.

(** The stored ids are genuine object ids: the string of each is accepted
    and denotes it. *)
Definition genuine_ids (c : collection) : Prop :=
  Forall (λ d, ObjectId (str (_id d)) = Ok (_id d)) c.

(** The users registered under an address, and the stores that hold at
    most one for each. *)
Definition registered (email : string) (c : collection) : list document :=
  Mongo.find (Mongo.Fields [("email", VStr email)]) c.

Definition unique_emails (c : collection) : Prop :=
  ∀ email, (length (registered email c) ≤ 1)%nat.

(** What is asked of the token primitives: until it expires, a token
    decodes to a payload with the subject it was made for. *)
Definition token_accepted (jwt_encode : dict → string)
    (jwt_decode : Z → string → option dict) (now : Z) : Prop :=
  ∀ payload sub exp,
    payload !! "sub" = Some (VStr sub) → payload !! "exp" = Some (VDate exp) →
    now < exp →
    ∃ payload', jwt_decode now (jwt_encode payload) = Some payload'
                ∧ payload' !! "sub" = Some (VStr sub).

(** No two documents of the collection have the same id. *)
Definition unique_ids (c : collection) : Prop := NoDup (_id <$> c).

(** The permission check of [update_job]: elevated roles, and the creator
    of the job. *)
Definition authorized (current_user job : document) : result bool :=
  role ← getitem (fields current_user) "role";
  if is_elevated role then Ok true
  else
    created_by ← getitem (fields job) "created_by";
    Ok (bool_decide (created_by = VStr (str (_id current_user)))).

(** Every value the payload supplies is the one the job has already. *)
Definition supplies_stored (job_data : JobUpdate) (job : document) : Prop :=
  Forall (λ k, match payload_field job_data k with
               | Some s => fields job !! k = Some (VStr s)
               | None => True
               end) JobUpdate_fields.

(** More sample data. *)
Module Demo.


Definition same_client : JobUpdate :=
  {| ju_client_name := Some "Client"; ju_address := None; ju_contact := None;
     ju_job_type := None; ju_notes := None; ju_status := None;
     ju_signature_url := None |}.

End Demo.

Module Channel.

(** A team channel that is full: 1000 messages, numbered by their times. *)
Definition hex_digit (n : nat) : ascii :=
  nth (n mod 16) (list_ascii_of_string "0123456789abcdef") "0"%char.

Definition numbered_id (n : nat) : Bson.ObjectId :=
  Oid ("00000000000000000000"
       ++ String (hex_digit (n / 4096))
            (String (hex_digit (n / 256))
               (String (hex_digit (n / 16)) (String (hex_digit n) EmptyString)))).

Definition team_message (n : nat) : document :=
  Sample.message_doc (numbered_id n) (str Sample.worker_id) "team" (Z.of_nat n).

Definition full : database :=
  set_messages (team_message <$> seq 0 1000) Sample.db.

Definition late : MessageCreate :=
  {| mc_to := "team"; mc_message := "anyone there?"; mc_image_url := None |}.

End Channel.

Module Site.

(** A job whose id has a letter, and photo uploads for it: one that
    writes the id in upper case, one without a caption. *)
Definition job_id : Bson.ObjectId := Oid "00000000000000000000000a".

Definition db : database :=
  set_jobs (jobs Sample.db ++ [Sample.job_doc job_id Sample.worker_id (VStr "") 30])
    Sample.db.


Definition no_caption : PhotoUpload :=
  {| pu_job_id := "00000000000000000000000a"; pu_image_base64 := "aGVsbG8=";
     pu_caption := None |}.

End Site.

(** * Properties *)

(** ** The hours calculator *)

Section Hours.

Import HoursSpec.


Lemma split_nonempty sep s : Py.split sep s ≠ [].
Proof.
  destruct s as [|c rest]; simpl; [done|].
  destruct (Ascii.eqb c sep); [done|]. by destruct (Py.split sep rest).
Qed.












End Hours.

(** ** The document store *)

Section MongoFacts.

Import Mongo.

Lemma find_one_cons q d c :
  find_one q (d :: c) = if matches q d then Some d else find_one q c.
Proof. unfold find_one, find. simpl. by destruct (matches q d). Qed.

Lemma find_one_Some q c d : find_one q c = Some d → d ∈ c ∧ matches q d = true.
Proof.
  induction c as [|d' c IH]; [done|].
  rewrite find_one_cons. destruct (matches q d') eqn:E.
  - intros [= ->]. split; [left|done].
  - intros H. destruct (IH H). split; [by right|done].
Qed.

Lemma find_one_ById oid c d : find_one (ById oid) c = Some d → _id d = oid.
Proof.
  intros H. apply find_one_Some in H as [_ H]. simpl in H.
  by apply bool_decide_eq_true in H.
Qed.

(** After an update by id, looking a document up by id finds the updated
    document under the updated id and the old one under any other. *)
Lemma find_one_update_one oid oid' upd c :
  find_one (ById oid') (update_one (ById oid) upd c).1 =
    if decide (oid' = oid) then set_fields upd <$> find_one (ById oid) c
    else find_one (ById oid') c.
Proof.
  induction c as [|d c IH]; simpl.
  { by destruct (decide (oid' = oid)). }
  case_bool_decide as Hd; simpl.
  - rewrite !find_one_cons. simpl.
    destruct (decide (oid' = oid)) as [->|Hne].
    + by rewrite !bool_decide_eq_true_2.
    + rewrite !bool_decide_eq_false_2; congruence.
  - destruct (update_one (ById oid) upd c) as [c' r] eqn:E. simpl in *.
    rewrite !find_one_cons, IH. simpl.
    destruct (decide (oid' = oid)) as [->|Hne].
    + by rewrite !bool_decide_eq_false_2.
    + done.
Qed.

(** An update that matches nothing changes nothing and counts nothing. *)
Lemma update_one_None q upd c :
  find_one q c = None →
  update_one q upd c = (c, {| matched_count := 0; modified_count := 0 |}).
Proof.
  induction c as [|d c IH]; [done|].
  rewrite find_one_cons. simpl. destruct (matches q d); [done|].
  intros H. by rewrite (IH H).
Qed.

(** An update whose fields the matched document already has changes
    nothing, and its [modified_count] is 0. *)
Lemma update_one_unchanged q upd c d :
  find_one q c = Some d → upd ∪ fields d = fields d →
  update_one q upd c = (c, {| matched_count := 1; modified_count := 0 |}).
Proof.
  induction c as [|d' c IH]; [done|].
  rewrite find_one_cons. simpl. destruct (matches q d') eqn:E.
  - intros [= ->] Hu. unfold set_fields. rewrite Hu. destruct d as [i f]. simpl.
    by rewrite decide_True.
  - intros H Hu. by rewrite (IH H Hu).
Qed.

(** An update that changes the matched document counts it. *)
Lemma update_one_changed q upd c d :
  find_one q c = Some d → upd ∪ fields d ≠ fields d →
  (update_one q upd c).2 = {| matched_count := 1; modified_count := 1 |}.
Proof.
  induction c as [|d' c IH]; [done|].
  rewrite find_one_cons. simpl. destruct (matches q d') eqn:E.
  - intros [= ->] Hu. simpl. rewrite decide_False; [done|].
    intros Heq. apply Hu. by rewrite <- Heq at 2.
  - intros H Hu. specialize (IH H Hu).
    by destruct (update_one q upd c).
Qed.

End MongoFacts.

(** ** Timesheet approval *)

(** Approving a timesheet that is not approved yet succeeds and sets the
    flag. *)
Lemma approve_timesheet_first db timesheet_id oid current_user role ts :
  fields current_user !! "role" = Some role → is_elevated role = true →
  ObjectId timesheet_id = Ok oid →
  Mongo.find_one (Mongo.ById oid) (timesheets db) = Some ts →
  fields ts !! "approved" ≠ Some (VBool true) →
  let r := approve_timesheet db timesheet_id current_user in
  r.2 = Ok "Timesheet approved"
  ∧ ∃ ts', Mongo.find_one (Mongo.ById oid) (timesheets r.1) = Some ts'
           ∧ fields ts' !! "approved" = Some (VBool true).
Proof.
  intros Hrole Hel Hoid Hts Hna. unfold approve_timesheet, getitem.
  rewrite Hrole, Hel, Hoid. simpl.
  pose proof (find_one_update_one oid oid {["approved" := VBool true]} (timesheets db)) as Hf.
  assert ({["approved" := VBool true]} ∪ fields ts ≠ fields ts) as Hne.
  { intros Heq. apply Hna. rewrite <- Heq.
    apply lookup_union_Some_l, lookup_singleton_eq. }
  pose proof (update_one_changed _ _ _ _ Hts Hne) as Hc.
  destruct (Mongo.update_one _ _ _) as [ts' res]. simpl in *. subst res. simpl.
  split; [done|]. rewrite Hf, decide_True, Hts by done. simpl.
  eexists. split; [done|]. simpl.
  apply lookup_union_Some_l, lookup_singleton_eq.
Qed.

(** Approving a timesheet that is approved already is answered with 404
    and leaves the store as it is. *)
Lemma approve_timesheet_again db timesheet_id oid current_user role ts :
  fields current_user !! "role" = Some role → is_elevated role = true →
  ObjectId timesheet_id = Ok oid →
  Mongo.find_one (Mongo.ById oid) (timesheets db) = Some ts →
  fields ts !! "approved" = Some (VBool true) →
  (timesheets (approve_timesheet db timesheet_id current_user).1 = timesheets db)
  ∧ (approve_timesheet db timesheet_id current_user).2
    = Raise (HTTPException 404 "Timesheet not found").
Proof.
  intros Hrole Hel Hoid Hts Ha. unfold approve_timesheet, getitem.
  rewrite Hrole, Hel, Hoid. simpl.
  rewrite (update_one_unchanged _ _ _ ts Hts); [done|].
  apply map_eq. intros k. destruct (decide (k = "approved")) as [->|Hk].
  - rewrite Ha. apply lookup_union_Some_l, lookup_singleton_eq.
  - by rewrite lookup_union_r by by apply lookup_singleton_ne.
Qed.

(** An id that names no timesheet is answered with 404. *)
Lemma approve_timesheet_unknown db timesheet_id oid current_user role :
  fields current_user !! "role" = Some role → is_elevated role = true →
  ObjectId timesheet_id = Ok oid →
  Mongo.find_one (Mongo.ById oid) (timesheets db) = None →
  (approve_timesheet db timesheet_id current_user).2
  = Raise (HTTPException 404 "Timesheet not found").
Proof.
  intros Hrole Hel Hoid Hts. unfold approve_timesheet, getitem.
  rewrite Hrole, Hel, Hoid. simpl. by rewrite (update_one_None _ _ _ Hts).
Qed.

(** C1.  A supervisor approves the stored, not yet approved timesheet
    [sheet1]: the call succeeds and the flag is set.  The supervisor
    approves it a second time: the handler looks at [modified_count], which
    is 0 because nothing changed, and answers 404 "Timesheet not found"
    although the timesheet is there. *)
Theorem approve_timesheet_twice :
  let id := "0123456789abcdef01234567" in
  let first := approve_timesheet Sample.db id Sample.supervisor in
  let second := approve_timesheet first.1 id Sample.supervisor in
  first.2 = Ok "Timesheet approved"
  ∧ (∃ ts, Mongo.find_one (Mongo.ById Sample.sheet1_id) (timesheets first.1) = Some ts
           ∧ fields ts !! "approved" = Some (VBool true))
  ∧ second.2 = Raise (HTTPException 404 "Timesheet not found")
  ∧ status_of second.2 = Some 404
  ∧ timesheets second.1 = timesheets first.1.
Proof.
  cbv zeta. split; [by vm_compute|]. split; [|by vm_compute].
  eexists. split; [by vm_compute|]. by vm_compute.
Qed.

(** ** Malformed identifiers *)




(** ** Job updates *)

Section UpdateJob.

Import Mongo.

Lemma filter_not_null_lookup (m : dict) k :
  filter (λ kv : string * value, kv.2 ≠ VNull) m !! k
  = match m !! k with Some VNull => None | o => o end.
Proof.
  rewrite map_lookup_filter. destruct (m !! k) as [v|]; simpl; [|done].
  case_guard as Hv; simpl in *; destruct v; done.
Qed.

Lemma JobUpdate_dict_completed_at job_data :
  JobUpdate_dict job_data !! "completed_at" = None.
Proof. destruct job_data. reflexivity. Qed.

Lemma JobUpdate_dict_status job_data :
  JobUpdate_dict job_data !! "status" = Some (of_option (ju_status job_data)).
Proof. destruct job_data. reflexivity. Qed.

Lemma JobUpdate_dict_value job_data k v :
  JobUpdate_dict job_data !! k = Some v → v = VNull ∨ ∃ s, v = VStr s.
Proof.
  unfold JobUpdate_dict. intros H.
  apply elem_of_list_to_map_2 in H.
  repeat (apply elem_of_cons in H as [[= _ ->]|H];
          [match goal with |- context [of_option ?o] => destruct o end; simpl; eauto|]).
  by apply elem_of_nil in H.
Qed.

Lemma update_data_of_eq job job_data now :
  update_data_of job job_data now =
    let update_data := filter (λ kv : string * value, kv.2 ≠ VNull) (JobUpdate_dict job_data) in
    if stamps job job_data then <["completed_at" := VDate now]> update_data else update_data.
Proof.
  unfold update_data_of, stamps. fold (completed_at job). cbv zeta.
  set (update_data := filter _ (JobUpdate_dict job_data)).
  assert (dict_get update_data "status" = of_option (ju_status job_data)) as ->.
  { unfold dict_get, update_data.
    rewrite filter_not_null_lookup, JobUpdate_dict_status.
    by destruct (ju_status job_data). }
  replace (bool_decide (of_option (ju_status job_data) = VStr "completed"))
    with (bool_decide (ju_status job_data = Some "completed")); [done|].
  apply bool_decide_ext. destruct (ju_status job_data); simpl; split; congruence.
Qed.

Lemma update_data_completed_at job job_data now :
  update_data_of job job_data now !! "completed_at"
  = if stamps job job_data then Some (VDate now) else None.
Proof.
  rewrite update_data_of_eq. cbv zeta. destruct (stamps job job_data).
  - apply lookup_insert_eq.
  - by rewrite filter_not_null_lookup, JobUpdate_dict_completed_at.
Qed.

Lemma update_data_lookup job job_data now k :
  k ≠ "completed_at" →
  update_data_of job job_data now !! k = VStr <$> payload_field job_data k.
Proof.
  intros Hk. rewrite update_data_of_eq. cbv zeta. unfold payload_field.
  assert (filter (λ kv : string * value, kv.2 ≠ VNull) (JobUpdate_dict job_data) !! k
          = VStr <$> match JobUpdate_dict job_data !! k with
                     | Some (VStr s) => Some s | _ => None end) as Hf.
  { rewrite filter_not_null_lookup.
    destruct (JobUpdate_dict job_data !! k) as [v|] eqn:E; [|done].
    by destruct (JobUpdate_dict_value _ _ _ E) as [->|[s ->]]. }
  destruct (stamps job job_data); [|done].
  by rewrite lookup_insert_ne.
Qed.

(** The store after an update request: as before when the request fails,
    and otherwise with the fields of [update_data] set on the job. *)
Lemma update_job_store db job_id job_data current_user now :
  (update_job db job_id job_data current_user now).1 = db
  ∨ ∃ oid job,
      ObjectId job_id = Ok oid ∧ job_by_id db oid = Some job
      ∧ (update_job db job_id job_data current_user now).1
        = set_jobs (update_one (ById oid) (update_data_of job job_data now) (jobs db)).1 db.
Proof.
  unfold update_job, job_by_id.
  destruct (ObjectId job_id) as [oid|]; [|by left].
  destruct (find_one (ById oid) (jobs db)) as [job|] eqn:Hjob; [|by left].
  match goal with |- context [match ?a with Ok _ => _ | Raise _ => _ end] =>
    destruct a as [[]|] end; [|by left..].
  right. exists oid, job. split; [done|]. split; [done|].
  by destruct (find_one (ById oid) (update_one _ _ _).1).
Qed.

(** A permitted update of a stored job goes through. *)
Lemma update_job_permitted db job_id oid job job_data current_user now :
  ObjectId job_id = Ok oid → job_by_id db oid = Some job →
  may_update current_user job →
  (update_job db job_id job_data current_user now).1
  = set_jobs (update_one (ById oid) (update_data_of job job_data now) (jobs db)).1 db.
Proof.
  unfold update_job, job_by_id, may_update, getitem.
  intros -> -> (role & -> & Hmay). unfold mbind, result_bind.
  assert (is_elevated role = true
          ∨ fields job !! "created_by" = Some (VStr (str (_id current_user)))) as [->|Hc].
  { destruct Hmay as [->|[->|H]]; [by left..|by right]. }
  - by destruct (find_one (ById oid) (update_one _ _ _).1).
  - rewrite Hc. destruct (is_elevated role);
      rewrite ?bool_decide_eq_true_2 by done;
      by destruct (find_one (ById oid) (update_one _ _ _).1).
Qed.


(** The stored jobs after a request that went through. *)
Lemma job_by_id_set_jobs db oid oid' upd :
  job_by_id (set_jobs (update_one (ById oid) upd (jobs db)).1 db) oid'
  = if decide (oid' = oid) then set_fields upd <$> job_by_id db oid
    else job_by_id db oid'.
Proof. unfold job_by_id. simpl. apply find_one_update_one. Qed.

(** One request keeps a completion timestamp that is set. *)
Lemma update_job_keeps_completed_at db job_id job_data current_user now oid job t :
  job_by_id db oid = Some job → completed_at job = VDate t →
  ∃ job', job_by_id (update_job db job_id job_data current_user now).1 oid = Some job'
          ∧ completed_at job' = VDate t.
Proof.
  intros Hjob Ht.
  destruct (update_job_store db job_id job_data current_user now)
    as [->|(oid0 & job0 & _ & Hjob0 & ->)]; [eauto|].
  rewrite job_by_id_set_jobs. destruct (decide (oid = oid0)) as [->|Hne]; [|eauto].
  rewrite Hjob0. cbn [fmap option_fmap option_map]. eexists. split; [done|].
  assert (job0 = job) as -> by congruence.
  unfold completed_at, dict_get, set_fields in *. cbn [fields].
  rewrite lookup_union_r; [done|].
  rewrite update_data_completed_at. unfold stamps, completed_at, dict_get.
  destruct (fields job !! "completed_at") as [v|];
    cbn [default from_option id] in Ht |- *; [|done].
  subst v. cbn [Bson.truthy negb]. by rewrite andb_false_r.
Qed.

Lemma run_updates_keeps_completed_at reqs db oid job t :
  job_by_id db oid = Some job → completed_at job = VDate t →
  ∃ job', job_by_id (run_updates db reqs) oid = Some job' ∧ completed_at job' = VDate t.
Proof.
  revert db job. induction reqs as [|r reqs IH]; intros db job Hjob Ht; [eauto|].
  destruct (update_job_keeps_completed_at db (req_job_id r) (req_job_data r)
              (req_user r) (req_now r) oid job t Hjob Ht) as (job' & Hjob' & Ht').
  exact (IH _ job' Hjob' Ht').
Qed.

(** C3.  The completion timestamp of a job is set exactly once.  A permitted
    update that sets the status to [completed] on a job whose completion
    timestamp is unset stamps it with the current time; an update that does
    not set the status to [completed] leaves it unset; and once it is set,
    no sequence of update requests, whoever sends them and whatever they
    say, changes or clears it. *)
Theorem completed_at_set_once :
  (∀ db job_id oid job job_data current_user now,
     ObjectId job_id = Ok oid → job_by_id db oid = Some job →
     may_update current_user job → completed_at job = VNull →
     ∃ job', job_by_id (update_job db job_id job_data current_user now).1 oid = Some job'
       ∧ completed_at job'
         = if bool_decide (ju_status job_data = Some "completed") then VDate now else VNull)
  ∧ (∀ db oid job t reqs,
       job_by_id db oid = Some job → completed_at job = VDate t →
       ∃ job', job_by_id (run_updates db reqs) oid = Some job'
         ∧ completed_at job' = VDate t).
Proof.
  split; [|intros; by eapply run_updates_keeps_completed_at].
  intros db job_id oid job job_data current_user now Hoid Hjob Hmay Hunset.
  rewrite (update_job_permitted _ _ _ _ _ _ _ Hoid Hjob Hmay).
  rewrite job_by_id_set_jobs, decide_True, Hjob by done.
  cbn [fmap option_fmap option_map]. eexists. split; [done|].
  unfold completed_at at 1, dict_get, set_fields. cbn [fields].
  rewrite lookup_union, update_data_completed_at. unfold stamps. rewrite Hunset.
  cbn [Bson.truthy negb]. rewrite andb_true_r.
  unfold completed_at, dict_get in Hunset.
  case_bool_decide; destruct (fields job !! "completed_at") as [v|];
    cbn [default from_option id union_with option_union_with] in *; by subst.
Qed.

Lemma completed_at_set_once_witness :
  (∃ job', job_by_id (update_job Sample.db "000000000000000000000001" Sample.complete
                        Sample.worker 77).1 Sample.job1_id = Some job'
     ∧ completed_at job' = VDate 77)
  ∧ (∃ job', job_by_id
               (run_updates
                  (update_job Sample.db "000000000000000000000001" Sample.complete
                     Sample.worker 77).1
                  [{| req_job_id := "000000000000000000000001";
                      req_job_data := Sample.complete;
                      req_user := Sample.admin; req_now := 99 |}])
               Sample.job1_id = Some job'
       ∧ completed_at job' = VDate 77).
Proof.
  split.
  - exact (proj1 completed_at_set_once Sample.db "000000000000000000000001"
             Sample.job1_id Sample.job1 Sample.complete Sample.worker 77
             eq_refl eq_refl
             (ex_intro _ (VStr "worker") (conj eq_refl (or_intror (or_intror eq_refl))))
             eq_refl).
  - refine (proj2 completed_at_set_once _ Sample.job1_id
              (Mongo.set_fields (update_data_of Sample.job1 Sample.complete 77) Sample.job1)
              77 _ _ _).
    + vm_compute. reflexivity.
    + vm_compute. reflexivity.
Defined.




End UpdateJob.

(** ** Timesheet creation *)

(** C10.  The hours calculator checks neither range nor order: a finish
    before the start and a break longer than the worked interval give
    negative hours, and the time "25:99" is read as 25 hours and 99 minutes;
    [create_timesheet] stores whatever the calculator returns as
    [total_hours]. *)
Theorem hours_not_validated db new_id now timesheet_data current_user name :
  fields current_user !! "name" = Some name →
  calculate_hours "17:00" "08:00" "00:00" = (-9)%Q
  ∧ calculate_hours "08:00" "09:00" "02:00" = (-1)%Q
  ∧ unpack_hm "25:99" = Some (25, 99)
  ∧ calculate_hours "00:00" "25:99" "00:00" = (533 # 20)%Q
  ∧ ∃ d, timesheets (create_timesheet db new_id now timesheet_data current_user).1
         = (timesheets db ++ [Doc new_id d])%list
       ∧ d !! "total_hours"
         = Some (VNum (calculate_hours (tc_start_time timesheet_data)
                         (tc_finish_time timesheet_data)
                         (tc_break_time timesheet_data))).
Proof.
  intros Hname. do 4 (split; [by vm_compute|]).
  unfold create_timesheet, getitem. rewrite Hname. cbn [fst timesheets set_timesheets].
  unfold Mongo.insert_one. eexists. split; [done|].
  apply lookup_union_Some_l. cbn [list_to_map foldr].
  by rewrite !lookup_insert_ne, lookup_insert_eq by done.
Qed.

Lemma hours_not_validated_witness :
  ∃ d, timesheets (create_timesheet Sample.db (Oid "0123456789abcdef01234569") 60
                     Sample.new_sheet Sample.worker).1
       = (timesheets Sample.db ++ [Doc (Oid "0123456789abcdef01234569") d])%list
     ∧ d !! "total_hours" = Some (VNum (-9)).
Proof.
  exact (proj2 (proj2 (proj2 (proj2
           (hours_not_validated Sample.db (Oid "0123456789abcdef01234569") 60
              Sample.new_sheet Sample.worker (VStr "Wes") eq_refl))))).
Defined.

(** ** Registration and login *)

Lemma find_one_None q c :
  Forall (λ d, Mongo.matches q d = false) c → Mongo.find_one q c = None.
Proof.
  induction 1 as [|d c Hd _ IH]; [done|].
  by rewrite find_one_cons, Hd.
Qed.

(** C9.  Registration needs no credentials and stores the role the request
    gives, whatever it is: with an email that is not registered yet the
    call succeeds, and the stored user and the response carry that role,
    "admin" included.  "worker" is only what a request without a role
    gets. *)
Theorem register_stores_role hash_password jwt_encode db new_id now
    name email password role :
  Forall (λ u, fields u !! "email" ≠ Some (VStr email)) (users db) →
  let user_data := UserRegister_init name email password role in
  let r := register hash_password jwt_encode db new_id now user_data in
  ∃ token d,
    r.2 = Ok token
    ∧ u_role (user token) = default "worker" role
    ∧ users r.1 = (users db ++ [Doc new_id d])%list
    ∧ d !! "role" = Some (VStr (default "worker" role))
    ∧ is_elevated (VStr (default "worker" role))
      = bool_decide (role = Some "admin" ∨ role = Some "supervisor").
Proof.
  intros Hfresh user_data r. subst r. unfold register.
  rewrite find_one_None.
  2:{ eapply Forall_impl; [exact Hfresh|]. intros u Hu. cbn.
      by rewrite bool_decide_eq_false_2. }
  cbn [fst snd users set_users]. unfold Mongo.insert_one.
  eexists _, _. split; [done|]. split; [done|]. split; [done|]. split.
  - cbn [list_to_map foldr]. by rewrite !lookup_insert_ne, lookup_insert_eq by done.
  - unfold is_elevated. apply bool_decide_ext. rewrite !elem_of_cons, elem_of_nil.
    destruct role as [role|]; cbn [default from_option id];
      split; intros H; intuition congruence.
Qed.

Lemma register_stores_role_witness :
  ∃ token d,
    (register Sample.no_password_hash Sample.encode Sample.db
       (Oid "eeeeeeeeeeeeeeeeeeeeeeee") 70
       (UserRegister_init "Eve" "eve@example.com" "pw" (Some "admin"))).2 = Ok token
    ∧ u_role (user token) = "admin"
    ∧ users (register Sample.no_password_hash Sample.encode Sample.db
               (Oid "eeeeeeeeeeeeeeeeeeeeeeee") 70
               (UserRegister_init "Eve" "eve@example.com" "pw" (Some "admin"))).1
      = (users Sample.db ++ [Doc (Oid "eeeeeeeeeeeeeeeeeeeeeeee") d])%list
    ∧ d !! "role" = Some (VStr "admin")
    ∧ is_elevated (VStr "admin")
      = bool_decide (Some "admin" = Some "admin" ∨ Some "admin" = Some "supervisor").
Proof.
  refine (register_stores_role Sample.no_password_hash Sample.encode Sample.db
            (Oid "eeeeeeeeeeeeeeeeeeeeeeee") 70 "Eve" "eve@example.com" "pw"
            (Some "admin") _).
  repeat constructor; vm_compute; discriminate.
Defined.

(** C4.  The [active] flag is looked at by [login] alone.  A user whose
    flag is false and who gives the right password is refused with 403;
    the same user's token, as long as it verifies, is resolved to the user
    by the authorization gate, which every other endpoint depends on. *)
Theorem active_checked_only_at_login verify_password jwt_encode jwt_decode db now
    suspended_user email password hashed token payload sub :
  Mongo.find_one (Mongo.Fields [("email", VStr email)]) (users db) = Some suspended_user →
  fields suspended_user !! "password" = Some (VStr hashed) →
  verify_password password hashed = true →
  fields suspended_user !! "active" = Some (VBool false) →
  jwt_decode now token = Some payload →
  payload !! "sub" = Some (VStr sub) →
  ObjectId sub = Ok (_id suspended_user) →
  Mongo.find_one (Mongo.ById (_id suspended_user)) (users db) = Some suspended_user →
  login verify_password jwt_encode db now {| ul_email := email; ul_password := password |}
  = Raise (HTTPException 403 "Account is suspended")
  ∧ get_current_user jwt_decode db now token = Ok suspended_user.
Proof.
  intros Hfind Hpw Hverify Hactive Hdecode Hsub Hoid Hbyid. split.
  - unfold login, getitem. cbn [ul_email ul_password].
    rewrite Hfind, Hpw. unfold mbind, result_bind. by rewrite Hverify, Hactive.
  - unfold get_current_user, dict_get. rewrite Hdecode, Hsub.
    cbn [default from_option id]. rewrite Hoid. unfold mbind, result_bind.
    by rewrite Hbyid.
Qed.

Lemma active_checked_only_at_login_witness :
  login Sample.check_password Sample.encode Sample.db 80
    {| ul_email := "sue@example.com"; ul_password := "secret" |}
  = Raise (HTTPException 403 "Account is suspended")
  ∧ get_current_user Sample.decode Sample.db 80 "dddddddddddddddddddddddd"
    = Ok Sample.suspended.
Proof.
  exact (active_checked_only_at_login Sample.check_password Sample.encode Sample.decode
           Sample.db 80 Sample.suspended "sue@example.com" "secret" "secret"
           "dddddddddddddddddddddddd" {["sub" := VStr "dddddddddddddddddddddddd"]}
           "dddddddddddddddddddddddd"
           eq_refl eq_refl eq_refl eq_refl eq_refl eq_refl eq_refl eq_refl).
Defined.

(** ** List operations *)

Section Lists.

Import Mongo.

Lemma Bson_le_total v1 v2 : Bson.le v1 v2 ∨ Bson.le v2 v1.
Proof.
  unfold Bson.le.
  destruct v1 as [|a|a|a|a|a], v2 as [|b|b|b|b|b]; cbn [Bson.leb];
    try (by left); try (by right).
  - destruct (Qlt_le_dec a b) as [H|H].
    + left. by apply Qle_bool_iff, Qlt_le_weak.
    + right. by apply Qle_bool_iff.
  - apply String.leb_total.
  - apply String.leb_total.
  - destruct a, b; auto.
  - destruct (Z.le_ge_cases a b); [left|right]; by apply Z.leb_le.
Qed.

Global Instance sort_rel_total key direction : Total (sort_rel key direction).
Proof.
  intros d1 d2. unfold sort_rel. destruct (0 <=? direction)%Z; apply Bson_le_total.
Qed.

Lemma Sorted_take {A} (R : relation A) n l : Sorted R l → Sorted R (take n l).
Proof.
  intros H. revert n. induction H as [|x l Hl IH Hx]; intros [|n]; simpl; try constructor.
  - apply IH.
  - destruct Hx; destruct n; simpl; constructor; done.
Qed.

Lemma Sorted_Forall2 {A B} (R : relation A) (S : relation B) (P : A → B → Prop) l k :
  (∀ a1 a2 b1 b2, P a1 b1 → P a2 b2 → R a1 a2 → S b1 b2) →
  Forall2 P l k → Sorted R l → Sorted S k.
Proof.
  intros HRS HP. induction HP as [|a b l k Hab Hlk IH]; [constructor|].
  intros Hs. apply Sorted_inv in Hs as [Hs Hhd]. constructor; [by apply IH|].
  destruct Hlk as [|a' b' l' k' Hab' _]; constructor.
  apply HdRel_inv in Hhd. by eapply HRS.
Qed.

(** What the cursor pipeline [find(q).sort(key, direction).to_list(1000)]
    returns. *)
Lemma pipeline_listing key direction selected :
  listing key direction selected (to_list 1000 (sort key direction selected)).
Proof.
  exists (sort key direction selected). split; [|split; [|done]].
  - apply merge_sort_Permutation.
  - apply (Sorted_merge_sort _).
Qed.

Lemma listing_subseteq key direction selected shown :
  listing key direction selected shown → shown ⊆ selected.
Proof.
  intros (sorted & Hp & _ & ->) d Hd. rewrite <- Hp. by eapply subseteq_take.
Qed.

Lemma listing_Sorted key direction selected shown :
  listing key direction selected shown → Sorted (sort_rel key direction) shown.
Proof. intros (sorted & _ & Hs & ->). by apply Sorted_take. Qed.

Lemma listing_length key direction selected shown :
  listing key direction selected shown → (length shown ≤ 1000)%nat.
Proof. intros (sorted & _ & _ & ->). rewrite length_take. lia. Qed.

Lemma find_subseteq q c : find q c ⊆ c.
Proof.
  intros d. unfold find. rewrite !list_elem_of_In, filter_In. tauto.
Qed.

(** A dictionary filter selects the documents with those fields. *)
Lemma find_filter q (P : document → Prop) `{!∀ d, Decision (P d)} c :
  (∀ d, matches q d = true ↔ P d) → find q c = filter P c.
Proof.
  intros HP. unfold find. induction c as [|d c IH]; [done|].
  rewrite filter_cons. cbn [List.filter]. rewrite IH. destruct (matches q d) eqn:E.
  - rewrite decide_True; [done|]. by apply HP.
  - rewrite decide_False; [done|]. rewrite <- HP. congruence.
Qed.

Lemma find_all c : find (Fields []) c = c.
Proof. unfold find. induction c as [|d c IH]; [done|]. simpl. by rewrite IH. Qed.

Lemma is_elevated_spec role : is_elevated role = true ↔ elevated role.
Proof.
  unfold is_elevated, elevated. rewrite bool_decide_eq_true, !elem_of_cons, elem_of_nil.
  tauto.
Qed.

(** Every document passes the response model, so the list is returned. *)
Lemma traverse_Ok {A B} (f : A → result B) l :
  Forall (λ x, ∃ y, f x = Ok y) l →
  ∃ ys, traverse f l = Ok ys ∧ Forall2 (λ x y, f x = Ok y) l ys.
Proof.
  induction 1 as [|x l [y Hy] _ (ys & IH & HF)]; [by exists []|].
  exists (y :: ys). simpl. rewrite Hy, IH. split; [done|]. by constructor.
Qed.

Lemma with_id_lookup d k : k ≠ "id" → with_id d !! k = fields d !! k.
Proof. intros Hk. unfold with_id. by rewrite lookup_insert_ne. Qed.

Lemma required_str_with_id d k s :
  k ≠ "id" → Pydantic.required_str (with_id d) k = Ok s → fields d !! k = Some (VStr s).
Proof.
  intros Hk. unfold Pydantic.required_str. rewrite with_id_lookup by done.
  intros H. repeat case_match; congruence.
Qed.

Lemma required_datetime_with_id d k t :
  k ≠ "id" → Pydantic.required_datetime (with_id d) k = Ok t →
  fields d !! k = Some (VDate t).
Proof.
  intros Hk. unfold Pydantic.required_datetime. rewrite with_id_lookup by done.
  intros H. repeat case_match; congruence.
Qed.

(** Splitting a successful response construction into its fields. *)
Ltac invert_init H :=
  unfold JobResponse_init, TimesheetResponse_init, MessageResponse_init,
    mbind, result_bind in H;
  repeat match type of H with
         | match ?x with Ok _ => _ | Raise _ => _ end = Ok _ =>
             let E := fresh "E" in destruct x eqn:E; [|discriminate H]
         end;
  injection H as <-.



Lemma MessageResponse_fields d r :
  MessageResponse_init (with_id d) = Ok r →
  fields d !! "timestamp" = Some (VDate (m_timestamp r))
  ∧ fields d !! "from_id" = Some (VStr (m_from_id r))
  ∧ fields d !! "to" = Some (VStr (m_to r)).
Proof.
  intros H. invert_init H. cbn [m_timestamp m_from_id m_to].
  split; [by apply required_datetime_with_id|].
  split; by apply required_str_with_id.
Qed.

Lemma traverse_Ok_inv {A B} (f : A → result B) l ys :
  traverse f l = Ok ys → Forall2 (λ x y, f x = Ok y) l ys.
Proof.
  revert ys. induction l as [|x l IH]; intros ys; simpl.
  - intros [= <-]. constructor.
  - unfold mbind, result_bind. destruct (f x) as [y|] eqn:Hy; [|done].
    destruct (traverse f l) as [ys'|]; [|done]. intros [= <-].
    constructor; [done|]. by apply IH.
Qed.

(** A list handler returns as many records as it was shown documents. *)
Lemma listing_responses {R} (init : dict → result R) key direction selected shown resps :
  listing key direction selected shown →
  traverse (λ d, init (with_id d)) shown = Ok resps →
  Forall2 (λ d r, init (with_id d) = Ok r) shown resps ∧ (length resps ≤ 1000)%nat.
Proof.
  intros Hl Ht. apply traverse_Ok_inv in Ht. split; [done|].
  rewrite <- (Forall2_length _ _ _ Ht). by eapply listing_length.
Qed.

(** When every selected record is valid the list handlers do return a
    list. *)
Lemma listing_valid {R} (init : dict → result R) key direction selected shown :
  Forall (λ d, ∃ r, init (with_id d) = Ok r) selected →
  listing key direction selected shown →
  ∃ resps, traverse (λ d, init (with_id d)) shown = Ok resps.
Proof.
  intros Hvalid Hl.
  destruct (traverse_Ok (λ d, init (with_id d)) shown) as (resps & Ht & _); [|eauto].
  rewrite Forall_forall in Hvalid |- *. intros d Hd. apply Hvalid.
  by apply (listing_subseteq _ _ _ _ Hl).
Qed.

End Lists.

Section ListHandlers.

Import Mongo.

Lemma Forall2_elem_of_r {A B} (P : A → B → Prop) l k y :
  Forall2 P l k → y ∈ k → ∃ x, x ∈ l ∧ P x y.
Proof.
  induction 1 as [|a b l k Hab _ IH]; intros Hy.
  - by apply elem_of_nil in Hy.
  - apply elem_of_cons in Hy as [->|Hy].
    + exists a. split; [left|done].
    + destruct (IH Hy) as (x & Hx & HP). exists x. split; [by right|done].
Qed.

Lemma find_created_by me c :
  find (Fields [("created_by", VStr me)]) c = filter (created_by me) c.
Proof.
  apply find_filter. intros d. unfold created_by. cbn.
  by rewrite andb_true_r, bool_decide_eq_true.
Qed.


Lemma find_broadcast c :
  find (Fields [("to", VStr "team")]) c = filter broadcast c.
Proof.
  apply find_filter. intros d. unfold broadcast. cbn.
  by rewrite andb_true_r, bool_decide_eq_true.
Qed.

Lemma find_exchanged me channel c :
  find (Or [[("from_id", VStr me); ("to", VStr channel)];
            [("from_id", VStr channel); ("to", VStr me)]]) c
  = filter (exchanged me channel) c.
Proof.
  apply find_filter. intros d. unfold exchanged. cbn.
  rewrite !andb_true_r, orb_false_r, orb_true_iff, !andb_true_iff, !bool_decide_eq_true.
  done.
Qed.

(** The query a role gets from the job and timesheet lists. *)
Lemma find_by_role role field me c :
  find (if is_elevated role then Fields [] else Fields [(field, VStr me)]) c
  = if decide (elevated role) then c else find (Fields [(field, VStr me)]) c.
Proof.
  pose proof (is_elevated_spec role) as Hspec.
  destruct (is_elevated role); destruct (decide (elevated role)) as [He|He].
  - apply find_all.
  - destruct He. by apply Hspec.
  - apply Hspec in He. discriminate He.
  - done.
Qed.



Lemma oldest_first_sort_rel d1 d2 r1 r2 :
  MessageResponse_init (with_id d1) = Ok r1 → MessageResponse_init (with_id d2) = Ok r2 →
  sort_rel "timestamp" 1 d1 d2 → oldest_first r1 r2.
Proof.
  intros [H1 _]%MessageResponse_fields [H2 _]%MessageResponse_fields.
  unfold sort_rel, sort_key, dict_get, oldest_first. rewrite H1, H2.
  cbn. unfold Bson.le. cbn. by rewrite Z.leb_le.
Qed.

(** What the three list handlers compute, with the query spelled out. *)
Lemma get_jobs_shown db current_user role :
  fields current_user !! "role" = Some role →
  get_jobs db current_user
  = traverse (λ d, JobResponse_init (with_id d))
      (to_list 1000
         (sort "created_at" (-1)
            (if decide (elevated role) then jobs db
             else filter (created_by (str (_id current_user))) (jobs db)))).
Proof.
  intros Hrole. unfold get_jobs, getitem. rewrite Hrole. unfold mbind, result_bind.
  by rewrite find_by_role, find_created_by.
Qed.


Lemma get_messages_shown db channel current_user :
  get_messages db channel current_user
  = traverse (λ d, MessageResponse_init (with_id d))
      (to_list 1000
         (sort "timestamp" 1
            (if decide (channel = "team") then filter broadcast (messages db)
             else filter (exchanged (str (_id current_user)) channel) (messages db)))).
Proof.
  unfold get_messages. cbv zeta. do 3 f_equal.
  destruct (decide (channel = "team")) as [->|Hne].
  - rewrite String.eqb_refl. apply find_broadcast.
  - apply String.eqb_neq in Hne. rewrite Hne. apply find_exchanged.
Qed.


(** C7.  For every store and every caller, the message list of the
    broadcast channel ["team"] is the response records of exactly the
    broadcast messages, so never of a message addressed to a user, and the
    list of any other channel is the response records of exactly the
    messages the caller and that channel sent each other, in either
    direction; both are put oldest first and cut off after 1000. *)
Theorem list_messages db channel current_user :
  let me := str (_id current_user) in
  ∃ shown,
    listing "timestamp" 1
      (if decide (channel = "team") then filter broadcast (messages db)
       else filter (exchanged me channel) (messages db))
      shown
    ∧ get_messages db channel current_user
      = traverse (λ d, MessageResponse_init (with_id d)) shown
    ∧ ∀ resps, get_messages db channel current_user = Ok resps →
        Forall2 (λ d r, MessageResponse_init (with_id d) = Ok r) shown resps
        ∧ Sorted oldest_first resps
        ∧ (if decide (channel = "team") then Forall (λ r, m_to r = "team") resps
           else Forall (λ r, (m_from_id r = me ∧ m_to r = channel)
                             ∨ (m_from_id r = channel ∧ m_to r = me)) resps)
        ∧ (length resps ≤ 1000)%nat.
Proof.
  intros me. rewrite get_messages_shown. fold me.
  set (selected := if decide (channel = "team") then filter broadcast (messages db)
                   else filter (exchanged me channel) (messages db)).
  pose proof (pipeline_listing "timestamp" 1 selected) as Hl.
  set (shown := to_list 1000 (sort "timestamp" 1 selected)) in *.
  exists shown. split; [exact Hl|]. split; [reflexivity|].
  intros resps Ht. destruct (listing_responses _ _ _ _ _ _ Hl Ht) as [HF Hlen].
  split; [done|]. split; [|split; [|done]].
  { eapply Sorted_Forall2; [|exact HF|by eapply listing_Sorted].
    intros d1 d2 r1 r2. apply oldest_first_sort_rel. }
  pose proof (listing_subseteq _ _ _ _ Hl) as Hsub. unfold selected in Hsub.
  destruct (decide (channel = "team")) as [->|Hne].
  - apply Forall_forall. intros r Hr.
    destruct (Forall2_elem_of_r _ _ _ _ HF Hr) as (d & Hd & Hdr).
    apply Hsub, list_elem_of_filter in Hd as [Hd _].
    apply MessageResponse_fields in Hdr as (_ & _ & Hto). unfold broadcast in Hd.
    congruence.
  - apply Forall_forall. intros r Hr.
    destruct (Forall2_elem_of_r _ _ _ _ HF Hr) as (d & Hd & Hdr).
    apply Hsub, list_elem_of_filter in Hd as [Hd _].
    apply MessageResponse_fields in Hdr as (_ & Hfrom & Hto).
    destruct Hd as [[H1 H2]|[H1 H2]]; [left|right]; split; congruence.
Qed.


Lemma list_messages_witness :
  ∃ team direct,
    get_messages Sample.db "team" Sample.worker = Ok team
    ∧ Forall (λ r, m_to r = "team") team
    ∧ get_messages Sample.db "dddddddddddddddddddddddd" Sample.worker = Ok direct
    ∧ Sorted oldest_first direct
    ∧ length direct = 2%nat.
Proof.
  destruct (list_messages Sample.db "team" Sample.worker) as (s1 & _ & _ & H1).
  destruct (list_messages Sample.db "dddddddddddddddddddddddd" Sample.worker)
    as (s2 & _ & _ & H2).
  destruct (get_messages Sample.db "team" Sample.worker) as [team|] eqn:E1;
    [|vm_compute in E1; discriminate E1].
  destruct (get_messages Sample.db "dddddddddddddddddddddddd" Sample.worker)
    as [direct|] eqn:E2; [|vm_compute in E2; discriminate E2].
  destruct (H1 team eq_refl) as (_ & _ & Hteam & _).
  destruct (H2 direct eq_refl) as (_ & Hsorted & _ & _).
  exists team, direct. split; [done|]. split; [exact Hteam|]. split; [done|].
  split; [exact Hsorted|].
  vm_compute in E2. injection E2 as <-. reflexivity.
Defined.

(** Stored records that pass the response model are always listed. *)
Lemma get_jobs_valid db current_user role :
  fields current_user !! "role" = Some role → Forall valid_job (jobs db) →
  ∃ resps, get_jobs db current_user = Ok resps.
Proof.
  intros Hrole Hvalid. rewrite (get_jobs_shown _ _ _ Hrole).
  eapply listing_valid; [|apply pipeline_listing].
  case_decide; [done|]. rewrite Forall_forall in Hvalid |- *.
  intros d [_ Hd]%list_elem_of_filter. by apply Hvalid.
Qed.

Lemma get_messages_valid db channel current_user :
  Forall valid_message (messages db) →
  ∃ resps, get_messages db channel current_user = Ok resps.
Proof.
  intros Hvalid. rewrite get_messages_shown.
  eapply listing_valid; [|apply pipeline_listing].
  rewrite Forall_forall in Hvalid |- *.
  case_decide; intros d [_ Hd]%list_elem_of_filter; by apply Hvalid.
Qed.

(** A job request with [notes: null] is stored, and the response model,
    whose [notes] is a string, rejects the stored record: the request is
    answered with 500, and so is every later job list that would show it. *)
Lemma create_job_null_notes :
  let r := create_job Sample.db (Oid "000000000000000000000003") 40
             Sample.job_request_null_notes Sample.worker in
  status_of r.2 = Some 500
  ∧ length (jobs r.1) = 3%nat
  ∧ status_of (get_jobs r.1 Sample.admin) = Some 500.
Proof. by vm_compute. Qed.

End ListHandlers.

(** * Further properties of the code *)

(** ** The hours calculator *)

Section MoreHours.

Lemma split_length sep s : length (Py.split sep s) = S (occurrences sep s).
Proof.
  induction s as [|c rest IH]; [done|].
  cbn [Py.split occurrences]. destruct (Ascii.eqb c sep); cbn [length]; [by rewrite IH|].
  pose proof (split_nonempty sep rest).
  destruct (Py.split sep rest); [done|]. cbn [length] in *. lia.
Qed.

Lemma unpack_hm_colons s hm : unpack_hm s = Some hm → occurrences ":" s = 1%nat.
Proof.
  unfold unpack_hm. intros H. pose proof (split_length ":" s) as Hlen.
  destruct (Py.split ":" s) as [|a [|b [|c l]]]; try discriminate H.
  cbn [length] in Hlen. lia.
Qed.

(** X1.  A time string that does not have exactly one colon, such as a
    time with seconds or a bare number, is not read at all: wherever it
    stands, the calculator returns 0.0 whatever the other two strings are. *)
Theorem calculate_hours_one_colon (bad a b : string) :
  occurrences ":" bad ≠ 1%nat →
  calculate_hours bad a b = 0%Q
  ∧ calculate_hours a bad b = 0%Q
  ∧ calculate_hours a b bad = 0%Q.
Proof.
  intros Hbad.
  assert (unpack_hm bad = None) as Hnone.
  { destruct (unpack_hm bad) as [hm|] eqn:E; [|done].
    by apply unpack_hm_colons in E. }
  unfold calculate_hours, calculate_hours_try. rewrite Hnone.
  split; [done|]. split.
  - by destruct (unpack_hm a) as [[]|].
  - destruct (unpack_hm a) as [[]|]; [|done]. by destruct (unpack_hm b) as [[]|].
Qed.

Lemma calculate_hours_one_colon_witness :
  calculate_hours "08:00:00" "17:00" "01:00" = 0%Q
  ∧ calculate_hours "17:00" "08:00:00" "01:00" = 0%Q
  ∧ calculate_hours "17:00" "01:00" "08:00:00" = 0%Q.
Proof.
  refine (calculate_hours_one_colon "08:00:00" "17:00" "01:00" _).
  vm_compute. discriminate.
Defined.



Lemma round_half_even_opp w :
  Py.round_half_even (inject_Z (- w) / 60 * 100)
  = - Py.round_half_even (inject_Z w / 60 * 100).
Proof.
  cbv [Py.round_half_even Qcompare Qfloor Qdiv Qmult Qinv Qplus Qminus Qopp inject_Z Qnum Qden].
  cbn [Pos.mul].
  repeat match goal with
         | |- context [?a ?= ?b] =>
             let H := fresh in destruct (Z.compare_spec a b) as [H|H|H]
         end;
    try (exfalso; Z.div_mod_to_equations; lia);
    Z.div_mod_to_equations; lia.
Qed.

(** X3.  With a break of zero minutes, exchanging start and finish changes
    the sign of the result and nothing else: the hours from a to b are
    minus the hours from b to a, and both are 0.0 when one does not
    parse. *)
Theorem calculate_hours_swap a b zero zh zm :
  unpack_hm zero = Some (zh, zm) → zh * 60 + zm = 0 →
  calculate_hours a b zero = (- calculate_hours b a zero)%Q.
Proof.
  intros Hz Hzero. unfold calculate_hours, calculate_hours_try. rewrite Hz.
  destruct (unpack_hm a) as [[ah am]|], (unpack_hm b) as [[bh bm]|];
    cbn [mbind option_bind]; try reflexivity.
  unfold Py.round2. rewrite Hzero.
  replace (bh * 60 + bm - (ah * 60 + am) - 0) with (- (ah * 60 + am - (bh * 60 + bm) - 0))
    by lia.
  rewrite round_half_even_opp.
  change ((- ?x # 100)%Q) with ((- x) # 100)%Q.
  rewrite <- Qred_opp. reflexivity.
Qed.

Lemma calculate_hours_swap_witness :
  calculate_hours "08:10" "17:00" "00:00" = (- calculate_hours "17:00" "08:10" "00:00")%Q.
Proof.
  exact (calculate_hours_swap "08:10" "17:00" "00:00" 0 0 eq_refl eq_refl).
Defined.

End MoreHours.

Section ObjectIds.

Lemma hex_lower_cases c :
  match Bson.hex_lower c with
  | Some c' =>
      Bson.hex_lower c' = Some c' ∧ Bson.is_ascii_space c' = false
      ∧ Bson.is_ascii_space c = false
  | None => True
  end.
Proof. destruct c as [[] [] [] [] [] [] [] []]; vm_compute; done. Qed.

Lemma hex_lower_fixed c c' :
  Bson.hex_lower c = Some c' →
  Bson.hex_lower c' = Some c' ∧ Bson.is_ascii_space c' = false.
Proof. intros H. pose proof (hex_lower_cases c) as Hc. rewrite H in Hc. tauto. Qed.

Lemma hex_lower_not_space c c' :
  Bson.hex_lower c = Some c' → Bson.is_ascii_space c = false.
Proof. intros H. pose proof (hex_lower_cases c) as Hc. rewrite H in Hc. tauto. Qed.

Lemma fromhex_canonical_aux n : ∀ s h,
  (String.length s ≤ n)%nat → Bson.fromhex s = Some h →
  Bson.fromhex h = Some h
  ∧ (String.length h + skipped_spaces s = String.length s)%nat.
Proof.
  induction n as [|n IH]; intros s h Hn Hs.
  - destruct s; [|cbn in Hn; lia]. injection Hs as <-. done.
  - destruct s as [|c rest]; [injection Hs as <-; done|].
    cbn [Bson.fromhex skipped_spaces String.length] in *.
    destruct (Bson.is_ascii_space c) eqn:Hc.
    + destruct (IH rest h ltac:(lia) Hs) as [? ?]. split; [done|lia].
    + destruct (Bson.hex_lower c) as [hi|] eqn:Hhi; [|done].
      destruct rest as [|d rest']; [done|].
      destruct (Bson.hex_lower d) as [lo|] eqn:Hlo; [|done].
      destruct (Bson.fromhex rest') as [r|] eqn:Hr; [|done].
      injection Hs as <-.
      cbn [String.length] in Hn.
      destruct (IH rest' r ltac:(lia) Hr) as [Hrr Hlen].
      destruct (hex_lower_fixed _ _ Hhi) as [Hhi' Hsp].
      destruct (hex_lower_fixed _ _ Hlo) as [Hlo' _].
      pose proof (hex_lower_not_space _ _ Hlo) as Hd.
      cbn [Bson.fromhex skipped_spaces String.length].
      rewrite Hsp, Hhi', Hlo', Hrr, Hd. split; [done|]. cbn. lia.
Qed.

(** An accepted id string is normalised: white space that
    [bytes.fromhex] skips is dropped and letters are lowered, so the
    id's string is 24 characters less the skipped ones.  When nothing was
    skipped, the string of the id is itself accepted and denotes the same
    id. *)
Lemma ObjectId_str_round_trip s oid :
  ObjectId s = Ok oid →
  (String.length (str oid) + skipped_spaces s = 24)%nat
  ∧ (skipped_spaces s = 0%nat → ObjectId (str oid) = Ok oid).
Proof.
  unfold ObjectId, Bson.ObjectId_of_str, str.
  destruct (String.length s =? 24)%nat eqn:Hlen; [|done].
  apply Nat.eqb_eq in Hlen.
  destruct (Bson.fromhex s) as [h|] eqn:Hs; [|done].
  cbn [fmap option_fmap option_map]. intros [= <-]. cbn [oid_hex].
  destruct (fromhex_canonical_aux _ s h (le_n _) Hs) as [Hh Hl].
  split; [lia|]. intros H0.
  replace (String.length h) with 24%nat by lia.
  cbn [Nat.eqb]. by rewrite Hh.
Qed.

(** X4.  A job is addressed by its id in any spelling: an id written with
    upper-case letters is accepted, and fetching or updating with it does
    exactly what the same request does with the id as the server prints
    it (lower case). *)
Theorem job_id_any_spelling db job_id oid :
  ObjectId job_id = Ok oid → skipped_spaces job_id = 0%nat →
  (∀ anyone, get_job db job_id anyone = get_job db (str oid) anyone)
  ∧ (∀ job_data current_user now,
       update_job db job_id job_data current_user now
       = update_job db (str oid) job_data current_user now).
Proof.
  intros Hoid Hspaces.
  destruct (ObjectId_str_round_trip _ _ Hoid) as [_ Hstr].
  specialize (Hstr Hspaces).
  split; intros; [unfold get_job|unfold update_job]; by rewrite Hoid, Hstr.
Qed.

Lemma job_id_any_spelling_witness :
  (∀ anyone,
     get_job Site.db "00000000000000000000000A" anyone
     = get_job Site.db "00000000000000000000000a" anyone)
  ∧ (∀ job_data current_user now,
       update_job Site.db "00000000000000000000000A" job_data current_user now
       = update_job Site.db "00000000000000000000000a" job_data current_user now).
Proof.
  exact (job_id_any_spelling Site.db "00000000000000000000000A" Site.job_id
           eq_refl eq_refl).
Defined.

End ObjectIds.


Section MoreAuth.

Lemma find_app q c c' : Mongo.find q (c ++ c') = (Mongo.find q c ++ Mongo.find q c')%list.
Proof. unfold Mongo.find. apply List.filter_app. Qed.


Lemma find_one_elem q c d :
  d ∈ c → Mongo.matches q d = true → is_Some (Mongo.find_one q c).
Proof.
  induction c as [|d' c IH]; intros Hin Hm; [by apply elem_of_nil in Hin|].
  rewrite find_one_cons. destruct (Mongo.matches q d') eqn:E; [by eexists|].
  apply elem_of_cons in Hin as [->|Hin]; [congruence|]. by apply IH.
Qed.

Lemma find_one_None_find q c : Mongo.find_one q c = None → Mongo.find q c = [].
Proof. unfold Mongo.find_one. by destruct (Mongo.find q c). Qed.

Lemma UserResponse_init_inv i name email role created r :
  UserResponse_init
    (list_to_map [("id", VStr i); ("name", name); ("email", email); ("role", role);
                  ("created_at", created)]) = Ok r →
  r = {| u_id := i; u_name := u_name r; u_email := u_email r; u_role := u_role r;
         u_created_at := u_created_at r |}
  ∧ name = VStr (u_name r) ∧ email = VStr (u_email r) ∧ role = VStr (u_role r)
  ∧ created = VDate (u_created_at r).
Proof.
  unfold UserResponse_init, Pydantic.required_str, Pydantic.required_datetime.
  cbn [list_to_map foldr].
  rewrite lookup_insert_eq.
  rewrite !(lookup_insert_ne _ "id") by done. rewrite lookup_insert_eq.
  rewrite !(lookup_insert_ne _ "name") by done. rewrite lookup_insert_eq.
  rewrite !(lookup_insert_ne _ "email") by done. rewrite lookup_insert_eq.
  rewrite !(lookup_insert_ne _ "role") by done. rewrite lookup_insert_eq.
  unfold mbind, result_bind.
  destruct name; try discriminate. destruct email; try discriminate.
  destruct role; try discriminate. destruct created; try discriminate.
  intros [= <-]. done.
Qed.


(** What a successful login tells. *)
Lemma login_Ok_inv verify_password jwt_encode db now credentials r :
  login verify_password jwt_encode db now credentials = Ok r →
  ∃ account hashed,
    Mongo.find_one (Mongo.Fields [("email", VStr (ul_email credentials))]) (users db)
    = Some account
    ∧ fields account !! "password" = Some (VStr hashed)
    ∧ verify_password (ul_password credentials) hashed = true
    ∧ Bson.truthy (default (VBool true) (fields account !! "active")) = true
    ∧ access_token r
      = create_access_token jwt_encode now {["sub" := VStr (str (_id account))]}
    ∧ u_id (user r) = str (_id account)
    ∧ fields account !! "name" = Some (VStr (u_name (user r)))
    ∧ fields account !! "email" = Some (VStr (u_email (user r)))
    ∧ fields account !! "role" = Some (VStr (u_role (user r))).
Proof.
  unfold login, getitem.
  destruct (Mongo.find_one _ (users db)) as [account|] eqn:Hfind; [|done].
  destruct (fields account !! "password") as [[| |hashed| | |]|] eqn:Hpw;
    unfold mbind, result_bind; try done.
  destruct (verify_password _ hashed) eqn:Hverify; cbn [negb]; [|done].
  destruct (negb _) eqn:Hactive; [done|].
  destruct (fields account !! "name") as [name|] eqn:Hname; [|done].
  destruct (fields account !! "email") as [email|] eqn:Hemail; [|done].
  destruct (fields account !! "role") as [role|] eqn:Hrole; [|done].
  destruct (fields account !! "created_at") as [created|] eqn:Hcreated; [|done].
  destruct (UserResponse_init _) as [u|] eqn:Hu; [|done].
  intros [= <-]. cbn [access_token user].
  apply UserResponse_init_inv in Hu as (Hid & -> & -> & -> & ->).
  exists account, hashed. rewrite Hid. cbn [u_id u_name u_email u_role].
  repeat split; try done.
  by apply negb_false_iff.
Qed.

(** X5.  Authentication ends in one of three ways.  It yields a stored
    user, named by the subject of the decoded token; or it refuses with
    401; or, when a token that decodes has a subject that is not an id
    string, the conversion's exception escapes and the answer is 500.  It
    never answers 403: whether the account is active is not looked at. *)
Theorem get_current_user_outcomes jwt_decode db now token :
  match get_current_user jwt_decode db now token with
  | Ok user =>
      user ∈ users db
      ∧ ∃ payload sub,
          jwt_decode now token = Some payload
          ∧ payload !! "sub" = Some (VStr sub) ∧ ObjectId sub = Ok (_id user)
  | Raise e =>
      http_status e = 401
      ∨ http_status e = 500
        ∧ ∃ payload subject,
            jwt_decode now token = Some payload
            ∧ payload !! "sub" = Some subject
            ∧ ∀ sub, subject = VStr sub → ObjectId sub = Raise e
  end.
Proof.
  unfold get_current_user, dict_get.
  destruct (jwt_decode now token) as [payload|]; [|by left].
  destruct (payload !! "sub") as [subject|] eqn:Hsub; cbn [default from_option id];
    [|by left].
  destruct subject as [| |sub| | |]; try by left.
  all: try (right; split; [done|]; eexists _, _; split; [done|]; split; [done|];
            intros ? [=]).
  unfold mbind, result_bind.
  destruct (ObjectId sub) as [oid|e] eqn:Hoid.
  - destruct (Mongo.find_one _ _) as [user|] eqn:Hfind; [|by left].
    pose proof (find_one_ById _ _ _ Hfind) as Hid.
    apply find_one_Some in Hfind as [Hin _].
    split; [done|]. exists payload, sub. by rewrite Hid.
  - right. unfold ObjectId in Hoid.
    destruct (Bson.ObjectId_of_str sub) eqn:E; [done|].
    injection Hoid as <-. split; [done|].
    exists payload, (VStr sub). split; [done|]. split; [done|].
    intros ? [= <-]. unfold ObjectId. by rewrite E.
Qed.

(** X6.  Login answers 401 with one and the same message when no account
    has the address and when the password is wrong, also for a suspended
    account: the password is checked before the account's state, so the
    answer tells neither whether the address is registered nor whether
    the account is suspended. *)
Theorem login_bad_credentials verify_password jwt_encode db now credentials :
  let found :=
    Mongo.find_one (Mongo.Fields [("email", VStr (ul_email credentials))]) (users db) in
  found = None
  ∨ (∃ account hashed,
       found = Some account ∧ fields account !! "password" = Some (VStr hashed)
       ∧ verify_password (ul_password credentials) hashed = false) →
  login verify_password jwt_encode db now credentials
  = Raise (HTTPException 401 "Invalid email or password").
Proof.
  intros found [Hnone|(account & hashed & Hfound & Hpw & Hverify)];
    subst found; unfold login, getitem.
  - by rewrite Hnone.
  - rewrite Hfound, Hpw. unfold mbind, result_bind. by rewrite Hverify.
Qed.

Lemma login_bad_credentials_witness :
  login Sample.check_password Sample.encode Sample.db 80
    {| ul_email := "sue@example.com"; ul_password := "guess" |}
  = Raise (HTTPException 401 "Invalid email or password").
Proof.
  refine (login_bad_credentials Sample.check_password Sample.encode Sample.db 80
            {| ul_email := "sue@example.com"; ul_password := "guess" |} _).
  right. exists Sample.suspended, "secret". repeat split; reflexivity.
Defined.

(** X7.  The token of a successful login authenticates as the account that
    logged in, for seven days: given token primitives that accept an
    unexpired token, and genuine ids in the store, authentication with
    that token before its expiry yields a stored user with the id the
    login response names. *)
Theorem login_token_authenticates verify_password jwt_encode jwt_decode
    db now now' credentials r :
  login verify_password jwt_encode db now credentials = Ok r →
  genuine_ids (users db) →
  token_accepted jwt_encode jwt_decode now' →
  now' < now + 7 * 24 * 60 * 60 * 1000 →
  ∃ current_user,
    get_current_user jwt_decode db now' (access_token r) = Ok current_user
    ∧ str (_id current_user) = u_id (user r).
Proof.
  intros Hlogin Hids Hcodec Hnow.
  apply login_Ok_inv in Hlogin
    as (account & hashed & Hfind & _ & _ & _ & -> & -> & _).
  apply find_one_Some in Hfind as [Hin _].
  unfold genuine_ids in Hids. rewrite Forall_forall in Hids.
  pose proof (Hids _ Hin) as Hoid.
  destruct (Hcodec (<["exp" := VDate (now + ACCESS_TOKEN_EXPIRE_MINUTES * 60 * 1000)]>
                      {["sub" := VStr (str (_id account))]})
                   (str (_id account)) (now + ACCESS_TOKEN_EXPIRE_MINUTES * 60 * 1000))
    as (payload' & Hdecode & Hsub).
  { rewrite lookup_insert_ne by done. apply lookup_singleton_eq. }
  { apply lookup_insert_eq. }
  { unfold ACCESS_TOKEN_EXPIRE_MINUTES. lia. }
  unfold get_current_user, create_access_token, dict_get.
  rewrite Hdecode, Hsub. cbn [default from_option id]. rewrite Hoid.
  unfold mbind, result_bind.
  destruct (find_one_elem (Mongo.ById (_id account)) _ _ Hin) as [current_user Hcur].
  { cbn. by apply bool_decide_eq_true_2. }
  rewrite Hcur. exists current_user. split; [done|].
  by rewrite (find_one_ById _ _ _ Hcur).
Qed.

Lemma sample_token_accepted now : token_accepted Sample.encode Sample.decode now.
Proof.
  intros payload sub exp Hsub _ _. unfold Sample.encode, Sample.decode.
  rewrite Hsub. eexists. split; [reflexivity|]. apply lookup_singleton_eq.
Qed.

Lemma sample_genuine_ids : genuine_ids (users Sample.db).
Proof. repeat constructor. Qed.

Lemma login_token_authenticates_witness :
  ∃ current_user,
    get_current_user Sample.decode Sample.db 90 "cccccccccccccccccccccccc"
    = Ok current_user
    ∧ str (_id current_user) = "cccccccccccccccccccccccc".
Proof.
  exact (login_token_authenticates Sample.check_password Sample.encode Sample.decode
           Sample.db 80 90 {| ul_email := "wes@example.com"; ul_password := "secret" |}
           _ eq_refl sample_genuine_ids (sample_token_accepted 90) eq_refl).
Defined.

End MoreAuth.

Section MoreRegister.

Lemma register_outcomes hash_password jwt_encode db new_id now user_data :
  let taken :=
    Mongo.find_one (Mongo.Fields [("email", VStr (ur_email user_data))]) (users db) in
  let new_user :=
    Doc new_id
      (list_to_map
         [("name", VStr (ur_name user_data));
          ("email", VStr (ur_email user_data));
          ("password", VStr (hash_password (ur_password user_data)));
          ("role", VStr (ur_role user_data));
          ("created_at", VDate now);
          ("active", VBool true)]) in
  (is_Some taken
   ∧ register hash_password jwt_encode db new_id now user_data
     = (db, Raise (HTTPException 400 "Email already registered")))
  ∨ (taken = None
     ∧ register hash_password jwt_encode db new_id now user_data
       = (set_users (users db ++ [new_user]) db,
          Ok {| access_token :=
                  create_access_token jwt_encode now {["sub" := VStr (str new_id)]};
                token_type := "bearer";
                user := {| u_id := str new_id; u_name := ur_name user_data;
                           u_email := ur_email user_data; u_role := ur_role user_data;
                           u_created_at := now |} |})).
Proof.
  intros taken new_user. subst taken. unfold register.
  destruct (Mongo.find_one _ (users db)) as [existing|]; [left|right]; done.
Qed.

Lemma new_user_lookup (name email password role : string) (now : Z) (d : dict) :
  d = list_to_map [("name", VStr name); ("email", VStr email); ("password", VStr password);
                   ("role", VStr role); ("created_at", VDate now); ("active", VBool true)] →
  d !! "name" = Some (VStr name) ∧ d !! "email" = Some (VStr email)
  ∧ d !! "password" = Some (VStr password) ∧ d !! "role" = Some (VStr role)
  ∧ d !! "created_at" = Some (VDate now) ∧ d !! "active" = Some (VBool true).
Proof.
  intros ->. cbn [list_to_map foldr].
  repeat split; by rewrite ?lookup_insert_ne, lookup_insert_eq by done.
Qed.

(** The dictionary of the new user, known by its entries only. *)
Ltac new_user_entries new_id :=
  match goal with
  | |- context [Doc new_id ?m] =>
      let Hd := fresh "Hd" in
      pose proof (new_user_lookup _ _ _ _ _ m eq_refl) as Hd;
      revert Hd; generalize m
  end.

(** X8.  Registering an address that a stored user already has is refused
    with 400, and nothing is stored. *)
Theorem register_taken_email hash_password jwt_encode db new_id now user_data existing :
  existing ∈ users db →
  fields existing !! "email" = Some (VStr (ur_email user_data)) →
  register hash_password jwt_encode db new_id now user_data
  = (db, Raise (HTTPException 400 "Email already registered")).
Proof.
  intros Hin Hemail.
  destruct (register_outcomes hash_password jwt_encode db new_id now user_data)
    as [[_ ->]|[Hnone _]]; [done|].
  destruct (find_one_elem (Mongo.Fields [("email", VStr (ur_email user_data))])
              (users db) existing Hin) as [d Hd].
  { cbn [Mongo.matches Mongo.matches_fields forallb fst snd].
    by rewrite bool_decide_eq_true_2. }
  congruence.
Qed.

Lemma register_taken_email_witness :
  register Sample.no_password_hash Sample.encode Sample.db
    (Oid "eeeeeeeeeeeeeeeeeeeeeeee") 70
    (UserRegister_init "Impostor" "ada@example.com" "pw" (Some "admin"))
  = (Sample.db, Raise (HTTPException 400 "Email already registered")).
Proof.
  refine (register_taken_email Sample.no_password_hash Sample.encode Sample.db
            (Oid "eeeeeeeeeeeeeeeeeeeeeeee") 70
            (UserRegister_init "Impostor" "ada@example.com" "pw" (Some "admin"))
            Sample.admin _ eq_refl).
  by left.
Defined.

(** X9.  Registration keeps addresses unique: when no two stored users
    share an address, none do after a registration, whatever it asks. *)
Theorem register_unique_emails hash_password jwt_encode db new_id now user_data :
  unique_emails (users db) →
  unique_emails (users (register hash_password jwt_encode db new_id now user_data).1).
Proof.
  intros Huniq.
  destruct (register_outcomes hash_password jwt_encode db new_id now user_data)
    as [[_ ->]|[Hnone ->]]; [done|].
  cbn [fst users set_users]. intros email. unfold registered.
  rewrite find_app, length_app.
  destruct (decide (email = ur_email user_data)) as [->|Hne].
  - rewrite (find_one_None_find _ _ Hnone). cbn [length].
    unfold Mongo.find. cbn [List.filter]. destruct (Mongo.matches _ _); cbn; lia.
  - pose proof (Huniq email) as Hle. unfold registered in Hle.
    new_user_entries new_id.
    intros d (_ & Hemail & _).
    unfold Mongo.find at 2. cbn [List.filter Mongo.matches Mongo.matches_fields forallb
                                  fst snd fields].
    rewrite Hemail, bool_decide_eq_false_2 by congruence. cbn. lia.
Qed.

Lemma sample_unique_emails : unique_emails (users Sample.db).
Proof.
  intros email. unfold registered.
  destruct (decide (email = "ada@example.com")) as [->|?];
    [vm_compute; lia|].
  destruct (decide (email = "sam@example.com")) as [->|?];
    [vm_compute; lia|].
  destruct (decide (email = "wes@example.com")) as [->|?];
    [vm_compute; lia|].
  destruct (decide (email = "sue@example.com")) as [->|?];
    [vm_compute; lia|].
  unfold Mongo.find.
  cbn [users Sample.db List.filter Mongo.matches Mongo.matches_fields forallb fst snd].
  rewrite !bool_decide_eq_false_2; [cbn; lia|..];
    intros H; vm_compute in H; congruence.
Qed.

Lemma register_unique_emails_witness :
  unique_emails
    (users (register Sample.no_password_hash Sample.encode Sample.db
              (Oid "eeeeeeeeeeeeeeeeeeeeeeee") 70
              (UserRegister_init "Eve" "eve@example.com" "pw" None)).1).
Proof.
  exact (register_unique_emails Sample.no_password_hash Sample.encode Sample.db
           (Oid "eeeeeeeeeeeeeeeeeeeeeeee") 70
           (UserRegister_init "Eve" "eve@example.com" "pw" None)
           sample_unique_emails).
Defined.





End MoreRegister.


Section Admin.

Lemma set_users_same db : set_users (users db) db = db.
Proof. by destruct db. Qed.

Lemma set_jobs_same db : set_jobs (jobs db) db = db.
Proof. by destruct db. Qed.

(** X12.  The routes for admins refuse every other role, supervisors
    included, before they look at the id in the path: deleting a job,
    suspending and activating a user and listing the users answer 403 and
    leave the store as it is, also when the id is malformed. *)
Theorem admin_only_routes db id current_user role :
  fields current_user !! "role" = Some role → role ≠ VStr "admin" →
  delete_job db id current_user = (db, Raise (HTTPException 403 "Not authorized"))
  ∧ suspend_user db id current_user = (db, Raise (HTTPException 403 "Admin only"))
  ∧ activate_user db id current_user = (db, Raise (HTTPException 403 "Admin only"))
  ∧ get_users db current_user = Raise (HTTPException 403 "Admin only").
Proof.
  intros Hrole Hne.
  unfold delete_job, suspend_user, activate_user, set_active, get_users, getitem.
  rewrite Hrole. unfold mbind, result_bind.
  by rewrite bool_decide_eq_false_2.
Qed.

Lemma admin_only_routes_witness :
  delete_job Sample.db "not-an-id" Sample.supervisor
  = (Sample.db, Raise (HTTPException 403 "Not authorized"))
  ∧ suspend_user Sample.db "not-an-id" Sample.supervisor
    = (Sample.db, Raise (HTTPException 403 "Admin only"))
  ∧ activate_user Sample.db "not-an-id" Sample.supervisor
    = (Sample.db, Raise (HTTPException 403 "Admin only"))
  ∧ get_users Sample.db Sample.supervisor = Raise (HTTPException 403 "Admin only").
Proof.
  refine (admin_only_routes Sample.db "not-an-id" Sample.supervisor (VStr "supervisor")
            eq_refl _).
  discriminate.
Defined.

(** An update that leaves the fields of a filter alone does not change
    which document the filter finds first. *)
Lemma matches_fields_set_fields conds upd d :
  Forall (λ kv, upd !! kv.1 = None) conds →
  Mongo.matches_fields conds (Mongo.set_fields upd d) = Mongo.matches_fields conds d.
Proof.
  intros Hconds. unfold Mongo.matches_fields.
  induction Hconds as [|kv conds Hkv _ IH]; [done|].
  cbn [forallb]. rewrite IH. f_equal.
  apply bool_decide_ext. cbn [Mongo.set_fields fields]. by rewrite lookup_union_r.
Qed.

Lemma find_one_fields_update_one conds q upd c d :
  Forall (λ kv, upd !! kv.1 = None) conds →
  Mongo.find_one q c = Some d →
  Mongo.find_one (Mongo.Fields conds) c = Some d →
  Mongo.find_one (Mongo.Fields conds) (Mongo.update_one q upd c).1
  = Some (Mongo.set_fields upd d).
Proof.
  intros Hconds Hq Hfind.
  assert (Mongo.matches_fields conds d = true) as Hd.
  { by apply find_one_Some in Hfind as [_ Hd]. }
  revert Hq Hfind. induction c as [|x c IH]; [done|].
  rewrite !find_one_cons. cbn [Mongo.update_one].
  destruct (Mongo.matches q x) eqn:Hq.
  - intros [= ->] _. cbn [fst]. rewrite find_one_cons.
    cbn [Mongo.matches]. by rewrite matches_fields_set_fields, Hd.
  - intros Hqd Hfind.
    destruct (Mongo.matches (Mongo.Fields conds) x) eqn:Hx.
    + injection Hfind as ->. apply find_one_Some in Hqd as [_ Hqd]. congruence.
    + destruct (Mongo.update_one q upd c) as [c' r] eqn:Hupd. cbn [fst] in *.
      rewrite find_one_cons, Hx. by apply IH.
Qed.

(** Login reads the id of the account it finds and six of its fields. *)
Lemma login_found verify_password jwt_encode db now credentials account :
  Mongo.find_one (Mongo.Fields [("email", VStr (ul_email credentials))]) (users db)
  = Some account →
  login verify_password jwt_encode db now credentials
  = (hashed ← getitem (fields account) "password";
     match hashed with
     | VStr hashed_password =>
         if negb (verify_password (ul_password credentials) hashed_password) then
           Raise (HTTPException 401 "Invalid email or password")
         else if negb (Bson.truthy (default (VBool true) (fields account !! "active"))) then
           Raise (HTTPException 403 "Account is suspended")
         else
           name ← getitem (fields account) "name";
           email ← getitem (fields account) "email";
           role ← getitem (fields account) "role";
           created_at ← getitem (fields account) "created_at";
           user_response ←
             UserResponse_init
               (list_to_map [("id", VStr (str (_id account))); ("name", name);
                             ("email", email); ("role", role);
                             ("created_at", created_at)]);
           Ok {| access_token :=
                   create_access_token jwt_encode now
                     {["sub" := VStr (str (_id account))]};
                 token_type := "bearer";
                 user := user_response |}
     | _ => Raise (Uncaught "TypeError")
     end).
Proof. intros Hfind. unfold login. by rewrite Hfind. Qed.

Lemma login_same verify_password jwt_encode db db' now credentials account account' :
  Mongo.find_one (Mongo.Fields [("email", VStr (ul_email credentials))]) (users db)
  = Some account →
  Mongo.find_one (Mongo.Fields [("email", VStr (ul_email credentials))]) (users db')
  = Some account' →
  _id account' = _id account →
  (∀ k, k ≠ "active" → fields account' !! k = fields account !! k) →
  Bson.truthy (default (VBool true) (fields account' !! "active"))
  = Bson.truthy (default (VBool true) (fields account !! "active")) →
  login verify_password jwt_encode db' now credentials
  = login verify_password jwt_encode db now credentials.
Proof.
  intros Hfind Hfind' Hid Hk Hactive.
  rewrite (login_found _ _ _ _ _ _ Hfind), (login_found _ _ _ _ _ _ Hfind').
  unfold getitem.
  rewrite (Hk "password"), (Hk "name"), (Hk "email"), (Hk "role"), (Hk "created_at")
    by done.
  by rewrite Hid, Hactive.
Qed.

Lemma set_active_lookup (active : bool) (d : dict) k :
  k ≠ "active" → ({["active" := VBool active]} ∪ d) !! k = d !! k.
Proof. intros Hk. by rewrite lookup_union_r by by apply lookup_singleton_ne. Qed.

Lemma set_active_lookup_active (active : bool) (d : dict) :
  ({["active" := VBool active]} ∪ d) !! "active" = Some (VBool active).
Proof. apply lookup_union_Some_l, lookup_singleton_eq. Qed.

Lemma set_active_admin active message db user_id current_user oid :
  fields current_user !! "role" = Some (VStr "admin") →
  ObjectId user_id = Ok oid →
  set_active active message db user_id current_user
  = (set_users (Mongo.update_one (Mongo.ById oid) {["active" := VBool active]}
                  (users db)).1 db,
     Ok message).
Proof.
  intros Hrole Hoid. unfold set_active, getitem. by rewrite Hrole, Hoid.
Qed.

(** X13.  Suspending locks the account out and activating lets it in
    again: when a login succeeds and an admin suspends the account, the
    same login is refused with 403; after the admin activates it, the
    login succeeds as it did at first. *)
Theorem suspend_then_activate verify_password jwt_encode db now credentials r
    admin user_id oid :
  login verify_password jwt_encode db now credentials = Ok r →
  fields admin !! "role" = Some (VStr "admin") →
  ObjectId user_id = Ok oid →
  Mongo.find_one (Mongo.ById oid) (users db)
  = Mongo.find_one (Mongo.Fields [("email", VStr (ul_email credentials))]) (users db) →
  let suspended := suspend_user db user_id admin in
  let activated := activate_user suspended.1 user_id admin in
  suspended.2 = Ok "User suspended"
  ∧ login verify_password jwt_encode suspended.1 now credentials
    = Raise (HTTPException 403 "Account is suspended")
  ∧ activated.2 = Ok "User activated"
  ∧ login verify_password jwt_encode activated.1 now credentials = Ok r.
Proof.
  intros Hlogin Hrole Hoid Hsame suspended activated.
  subst suspended activated. unfold suspend_user, activate_user.
  rewrite (set_active_admin false _ db user_id admin oid Hrole Hoid).
  cbn [fst snd].
  rewrite (set_active_admin true _ _ user_id admin oid Hrole Hoid).
  cbn [fst snd].
  set (db1 := set_users _ db). set (db2 := set_users _ db1).
  pose proof Hlogin as Hinv.
  apply login_Ok_inv in Hinv as (account & hashed & Hfind & Hpw & Hverify & Hactive & _).
  rewrite Hfind in Hsame.
  assert (Mongo.find_one (Mongo.Fields [("email", VStr (ul_email credentials))])
            (users db1)
          = Some (Mongo.set_fields {["active" := VBool false]} account)) as Hfind1.
  { apply find_one_fields_update_one; [by repeat constructor|done..]. }
  assert (Mongo.find_one (Mongo.ById oid) (users db1)
          = Some (Mongo.set_fields {["active" := VBool false]} account)) as Hsame1.
  { unfold db1. cbn [users set_users].
    rewrite find_one_update_one, decide_True by done. by rewrite Hsame. }
  assert (Mongo.find_one (Mongo.Fields [("email", VStr (ul_email credentials))])
            (users db2)
          = Some (Mongo.set_fields {["active" := VBool true]}
                    (Mongo.set_fields {["active" := VBool false]} account))) as Hfind2.
  { apply find_one_fields_update_one; [by repeat constructor|done..]. }
  split; [done|]. split; [|split; [done|]].
  - rewrite (login_found _ _ _ _ _ _ Hfind1). unfold getitem.
    cbn [Mongo.set_fields fields].
    rewrite (set_active_lookup false _ "password"), Hpw by done.
    unfold mbind, result_bind.
    by rewrite Hverify, set_active_lookup_active.
  - rewrite <- Hlogin. apply (login_same _ _ _ _ _ _ _ _ Hfind Hfind2); [done|..].
    + intros k Hk. cbn [Mongo.set_fields fields]. by rewrite !set_active_lookup.
    + cbn [Mongo.set_fields fields]. by rewrite set_active_lookup_active, Hactive.
Qed.

Lemma suspend_then_activate_witness :
  let suspended := suspend_user Sample.db "cccccccccccccccccccccccc" Sample.admin in
  let activated := activate_user suspended.1 "cccccccccccccccccccccccc" Sample.admin in
  suspended.2 = Ok "User suspended"
  ∧ login Sample.check_password Sample.encode suspended.1 80
      {| ul_email := "wes@example.com"; ul_password := "secret" |}
    = Raise (HTTPException 403 "Account is suspended")
  ∧ activated.2 = Ok "User activated"
  ∧ login Sample.check_password Sample.encode activated.1 80
      {| ul_email := "wes@example.com"; ul_password := "secret" |}
    = Ok {| access_token := "cccccccccccccccccccccccc"; token_type := "bearer";
            user := {| u_id := "cccccccccccccccccccccccc"; u_name := "Wes";
                       u_email := "wes@example.com"; u_role := "worker";
                       u_created_at := 0 |} |}.
Proof.
  exact (suspend_then_activate Sample.check_password Sample.encode Sample.db 80
           {| ul_email := "wes@example.com"; ul_password := "secret" |} _
           Sample.admin "cccccccccccccccccccccccc" Sample.worker_id
           eq_refl eq_refl eq_refl eq_refl).
Defined.

(** X14.  Suspending or activating an id that no stored user has reports
    success all the same, and changes nothing. *)
Theorem set_active_unknown_user db user_id admin oid :
  fields admin !! "role" = Some (VStr "admin") →
  ObjectId user_id = Ok oid →
  Mongo.find_one (Mongo.ById oid) (users db) = None →
  suspend_user db user_id admin = (db, Ok "User suspended")
  ∧ activate_user db user_id admin = (db, Ok "User activated").
Proof.
  intros Hrole Hoid Hnone. unfold suspend_user, activate_user.
  rewrite !(set_active_admin _ _ db user_id admin oid Hrole Hoid).
  rewrite !update_one_None by done. cbn [fst]. by rewrite set_users_same.
Qed.

Lemma set_active_unknown_user_witness :
  suspend_user Sample.db "ffffffffffffffffffffffff" Sample.admin
  = (Sample.db, Ok "User suspended")
  ∧ activate_user Sample.db "ffffffffffffffffffffffff" Sample.admin
    = (Sample.db, Ok "User activated").
Proof.
  exact (set_active_unknown_user Sample.db "ffffffffffffffffffffffff" Sample.admin
           (Oid "ffffffffffffffffffffffff") eq_refl eq_refl eq_refl).
Defined.

End Admin.

Section Deletion.

Lemma delete_one_None q c :
  Mongo.find_one q c = None → Mongo.delete_one q c = (c, {| Mongo.deleted_count := 0 |}).
Proof.
  induction c as [|x c IH]; [done|]. rewrite find_one_cons. cbn [Mongo.delete_one].
  destruct (Mongo.matches q x); [done|]. intros Hc. by rewrite IH.
Qed.

Lemma delete_one_Some q c d :
  Mongo.find_one q c = Some d →
  ∃ before after,
    c = (before ++ d :: after)%list
    ∧ Mongo.delete_one q c = ((before ++ after)%list, {| Mongo.deleted_count := 1 |})
    ∧ Forall (λ x, Mongo.matches q x = false) before.
Proof.
  induction c as [|x c IH]; [done|]. rewrite find_one_cons. cbn [Mongo.delete_one].
  destruct (Mongo.matches q x) eqn:Hx.
  - intros [= ->]. by exists [], c.
  - intros Hc. destruct (IH Hc) as (before & after & -> & -> & Hbefore).
    exists (x :: before), after. split; [done|]. split; [done|]. by constructor.
Qed.

(** X15.  What deleting a job does.  For an admin and a well-formed id:
    when no job has the id the answer is 404 and nothing changes;
    otherwise exactly the first job with that id is removed, the other
    jobs stay as and where they are, and users, timesheets, messages and
    photos are untouched, so the photos and timesheets of the job stay
    behind.  When ids are unique, fetching the id afterwards gives 404. *)
Theorem delete_job_effect db job_id admin oid :
  fields admin !! "role" = Some (VStr "admin") →
  ObjectId job_id = Ok oid →
  let r := delete_job db job_id admin in
  match job_by_id db oid with
  | None => r = (db, Raise (HTTPException 404 "Job not found"))
  | Some job =>
      r.2 = Ok "Job deleted successfully"
      ∧ (∃ before after,
           jobs db = (before ++ job :: after)%list
           ∧ jobs r.1 = (before ++ after)%list)
      ∧ users r.1 = users db ∧ timesheets r.1 = timesheets db
      ∧ messages r.1 = messages db ∧ photos r.1 = photos db
      ∧ (unique_ids (jobs db) →
         ∀ current_user,
           get_job r.1 job_id current_user = Raise (HTTPException 404 "Job not found"))
  end.
Proof.
  intros Hrole Hoid r. subst r. unfold delete_job, getitem, job_by_id.
  rewrite Hrole, Hoid. cbn [negb]. rewrite bool_decide_eq_true_2 by done. cbn [negb].
  destruct (Mongo.find_one (Mongo.ById oid) (jobs db)) as [job|] eqn:Hfind.
  - destruct (delete_one_Some _ _ _ Hfind) as (before & after & Hjobs & -> & Hbefore).
    cbn [Mongo.deleted_count Nat.eqb fst snd jobs users timesheets messages photos
         set_jobs].
    split; [done|]. split; [by exists before, after|]. repeat split; try done.
    intros Huniq current_user. unfold get_job. rewrite Hoid.
    unfold mbind, result_bind. cbn [jobs set_jobs].
    rewrite find_one_None; [done|].
    pose proof (find_one_ById _ _ _ Hfind) as Hid.
    unfold unique_ids in Huniq. rewrite Hjobs, fmap_app, fmap_cons in Huniq.
    apply NoDup_app in Huniq as (_ & Hba & Hafter).
    apply NoDup_cons in Hafter as [Hnotin _].
    apply Forall_app. split; [done|].
    apply Forall_forall. intros x Hx. cbn. apply bool_decide_eq_false_2.
    intros Heq. apply Hnotin. rewrite Hid, <- Heq. by apply list_elem_of_fmap_2.
  - rewrite delete_one_None by done. cbn [Mongo.deleted_count Nat.eqb].
    by rewrite set_jobs_same.
Qed.

Lemma delete_job_effect_witness :
  let r := delete_job Sample.db "000000000000000000000001" Sample.admin in
  r.2 = Ok "Job deleted successfully"
  ∧ (∃ before after,
       jobs Sample.db = (before ++ Sample.job1 :: after)%list
       ∧ jobs r.1 = (before ++ after)%list)
  ∧ users r.1 = users Sample.db ∧ timesheets r.1 = timesheets Sample.db
  ∧ messages r.1 = messages Sample.db ∧ photos r.1 = photos Sample.db
  ∧ (unique_ids (jobs Sample.db) →
     ∀ current_user,
       get_job r.1 "000000000000000000000001" current_user
       = Raise (HTTPException 404 "Job not found")).
Proof.
  exact (delete_job_effect Sample.db "000000000000000000000001" Sample.admin
           Sample.job1_id eq_refl eq_refl).
Defined.

Lemma user_record_inv u r :
  (name ← getitem (fields u) "name";
   email ← getitem (fields u) "email";
   role ← getitem (fields u) "role";
   created_at ← getitem (fields u) "created_at";
   UserResponse_init
     (list_to_map [("id", VStr (str (_id u))); ("name", name); ("email", email);
                   ("role", role); ("created_at", created_at)])) = Ok r →
  r = {| u_id := str (_id u); u_name := u_name r; u_email := u_email r;
         u_role := u_role r; u_created_at := u_created_at r |}
  ∧ fields u !! "name" = Some (VStr (u_name r))
  ∧ fields u !! "email" = Some (VStr (u_email r))
  ∧ fields u !! "role" = Some (VStr (u_role r))
  ∧ fields u !! "created_at" = Some (VDate (u_created_at r)).
Proof.
  unfold getitem.
  destruct (fields u !! "name") as [name|]; [|done].
  destruct (fields u !! "email") as [email|]; [|done].
  destruct (fields u !! "role") as [role|]; [|done].
  destruct (fields u !! "created_at") as [created|]; [|done].
  unfold mbind, result_bind. intros H.
  by apply UserResponse_init_inv in H as (? & -> & -> & -> & ->).
Qed.

(** X16.  The list of users an admin gets has one record for each of the
    first 1000 stored users, in the order of the store, suspended users
    included; each record carries the id, name, address, role and creation
    time of its user. *)
Theorem get_users_lists db admin records :
  fields admin !! "role" = Some (VStr "admin") →
  get_users db admin = Ok records →
  Forall2
    (λ u r,
       u_id r = str (_id u)
       ∧ fields u !! "name" = Some (VStr (u_name r))
       ∧ fields u !! "email" = Some (VStr (u_email r))
       ∧ fields u !! "role" = Some (VStr (u_role r))
       ∧ fields u !! "created_at" = Some (VDate (u_created_at r)))
    (take 1000 (users db)) records.
Proof.
  intros Hrole. unfold get_users, getitem. rewrite Hrole.
  unfold mbind at 1, result_bind at 1.
  rewrite bool_decide_eq_true_2 by done. cbn [negb].
  rewrite find_all. unfold Mongo.to_list. intros Hrecords.
  apply traverse_Ok_inv in Hrecords.
  eapply Forall2_impl; [exact Hrecords|].
  intros u r Hr. cbn beta in Hr. apply user_record_inv in Hr as (Hid & ? & ? & ? & ?).
  rewrite Hid. by cbn [u_id].
Qed.

Lemma get_users_lists_witness :
  ∃ records,
    get_users Sample.db Sample.admin = Ok records
    ∧ Forall2
        (λ u r,
           u_id r = str (_id u)
           ∧ fields u !! "name" = Some (VStr (u_name r))
           ∧ fields u !! "email" = Some (VStr (u_email r))
           ∧ fields u !! "role" = Some (VStr (u_role r))
           ∧ fields u !! "created_at" = Some (VDate (u_created_at r)))
        (take 1000 (users Sample.db)) records.
Proof.
  eexists. split; [reflexivity|].
  exact (get_users_lists Sample.db Sample.admin _ eq_refl eq_refl).
Defined.

End Deletion.


Section MoreJobs.




Lemma set_jobs_set_jobs c c' db : set_jobs c (set_jobs c' db) = set_jobs c db.
Proof. done. Qed.

Lemma set_fields_same upd d : upd ∪ fields d = fields d → Mongo.set_fields upd d = d.
Proof. intros H. unfold Mongo.set_fields. rewrite H. by destruct d. Qed.

(** The handler, with the lookup after the write resolved. *)
Lemma update_job_eq db job_id job_data current_user now :
  update_job db job_id job_data current_user now
  = match ObjectId job_id with
    | Raise e => (db, Raise e)
    | Ok oid =>
        match job_by_id db oid with
        | None => (db, Raise (HTTPException 404 "Job not found"))
        | Some job =>
            match authorized current_user job with
            | Raise e => (db, Raise e)
            | Ok false => (db, Raise (HTTPException 403 "Not authorized"))
            | Ok true =>
                let update_data := update_data_of job job_data now in
                (set_jobs (Mongo.update_one (Mongo.ById oid) update_data (jobs db)).1 db,
                 JobResponse_init (with_id (Mongo.set_fields update_data job)))
            end
        end
    end.
Proof.
  unfold update_job, job_by_id, authorized.
  destruct (ObjectId job_id) as [oid|]; [|done].
  destruct (Mongo.find_one (Mongo.ById oid) (jobs db)) as [job|] eqn:Hjob; [|done].
  match goal with |- context [match ?a with Ok _ => _ | Raise _ => _ end] =>
    destruct a as [[]|] end; [|done..].
  cbv zeta. rewrite find_one_update_one, decide_True, Hjob by done.
  done.
Qed.

Lemma payload_field_created_by job_data : payload_field job_data "created_by" = None.
Proof. destruct job_data. reflexivity. Qed.

Lemma payload_field_fields job_data k s :
  payload_field job_data k = Some s → k ∈ JobUpdate_fields.
Proof.
  unfold payload_field, JobUpdate_dict.
  destruct (list_to_map _ !! k) as [v|] eqn:H; [|done]. intros _.
  apply elem_of_list_to_map_2 in H. unfold JobUpdate_fields.
  repeat (apply elem_of_cons in H as [[= -> _]|H]; [set_solver|]).
  by apply elem_of_nil in H.
Qed.



Lemma update_data_subseteq job job_data now :
  supplies_stored job_data job → stamps job job_data = false →
  update_data_of job job_data now ∪ fields job = fields job.
Proof.
  intros Hstored Hstamps. apply map_eq. intros k.
  destruct (update_data_of job job_data now !! k) as [v|] eqn:Hk.
  - rewrite (lookup_union_Some_l _ _ _ _ Hk).
    destruct (decide (k = "completed_at")) as [->|Hne].
    { rewrite update_data_completed_at, Hstamps in Hk. done. }
    rewrite update_data_lookup in Hk by done.
    destruct (payload_field job_data k) as [s|] eqn:Hs; [|done].
    injection Hk as <-.
    unfold supplies_stored in Hstored. rewrite Forall_forall in Hstored.
    pose proof (Hstored k (payload_field_fields _ _ _ Hs)) as H.
    by rewrite Hs in H.
  - by rewrite lookup_union_r.
Qed.

Lemma may_update_authorized current_user job :
  may_update current_user job → authorized current_user job = Ok true.
Proof.
  intros (role & Hrole & Hmay). unfold authorized, getitem. rewrite Hrole.
  unfold mbind, result_bind.
  destruct Hmay as [->|[->|Hc]]; [done..|].
  destruct (is_elevated role); [done|]. rewrite Hc.
  by rewrite bool_decide_eq_true_2.
Qed.

(** X18.  An update that supplies only values the job already has, and
    that does not complete it for the first time, writes nothing: the
    store is left as it is and the answer is what fetching the job gives. *)
Theorem update_job_no_change db job_id oid job job_data current_user now :
  ObjectId job_id = Ok oid → job_by_id db oid = Some job →
  may_update current_user job →
  supplies_stored job_data job → stamps job job_data = false →
  update_job db job_id job_data current_user now = (db, get_job db job_id current_user).
Proof.
  intros Hoid Hjob Hmay Hstored Hstamps.
  pose proof (update_data_subseteq job job_data now Hstored Hstamps) as Hsame.
  rewrite update_job_eq, Hoid, Hjob, (may_update_authorized _ _ Hmay). cbv zeta.
  unfold get_job. rewrite Hoid. unfold mbind, result_bind.
  unfold job_by_id in Hjob. rewrite Hjob.
  rewrite (update_one_unchanged _ _ _ _ Hjob Hsame). cbn [fst].
  by rewrite set_jobs_same, set_fields_same.
Qed.

Lemma update_job_no_change_witness :
  update_job Sample.db "000000000000000000000001" Demo.same_client Sample.worker 50
  = (Sample.db, get_job Sample.db "000000000000000000000001" Sample.worker).
Proof.
  refine (update_job_no_change Sample.db "000000000000000000000001" Sample.job1_id
            Sample.job1 Demo.same_client Sample.worker 50 eq_refl eq_refl _ _ eq_refl).
  - exists (VStr "worker"). split; [reflexivity|]. right. right. reflexivity.
  - repeat constructor.
Defined.

Lemma authorized_set_fields current_user job job_data now :
  authorized current_user (Mongo.set_fields (update_data_of job job_data now) job)
  = authorized current_user job.
Proof.
  unfold authorized, getitem. cbn [Mongo.set_fields fields].
  rewrite lookup_union_r; [done|].
  by rewrite update_data_lookup, payload_field_created_by.
Qed.

Lemma update_data_again job job_data now now' :
  let job' := Mongo.set_fields (update_data_of job job_data now) job in
  update_data_of job' job_data now' ∪ fields job' = fields job'.
Proof.
  intros job'. apply map_eq. intros k.
  destruct (update_data_of job' job_data now' !! k) as [v|] eqn:Hk;
    [|by rewrite lookup_union_r].
  rewrite (lookup_union_Some_l _ _ _ _ Hk). subst job'.
  cbn [Mongo.set_fields fields] in *.
  destruct (decide (k = "completed_at")) as [->|Hne].
  - exfalso. rewrite update_data_completed_at in Hk.
    destruct (stamps _ job_data) eqn:Hstamps'; [|done].
    unfold stamps, completed_at, dict_get in Hstamps'.
    cbn [Mongo.set_fields fields] in Hstamps'.
    apply andb_true_iff in Hstamps' as [Hstatus Hnot].
    destruct (stamps job job_data) eqn:Hstamps.
    + rewrite (lookup_union_Some_l _ _ "completed_at" (VDate now)) in Hnot; [done|].
      by rewrite update_data_completed_at, Hstamps.
    + rewrite lookup_union_r in Hnot
        by by rewrite update_data_completed_at, Hstamps.
      unfold stamps, completed_at, dict_get in Hstamps.
      by rewrite Hstatus, Hnot in Hstamps.
  - rewrite update_data_lookup in Hk by done.
    symmetry. apply lookup_union_Some_l. by rewrite update_data_lookup.
Qed.

(** X19.  Updating is idempotent: sending the same request a second time,
    at whatever later time, leaves the store as the first left it and
    gets the same answer.  In particular a job is not stamped as
    completed twice. *)
Theorem update_job_idempotent db job_id job_data current_user now now' :
  let first := update_job db job_id job_data current_user now in
  update_job first.1 job_id job_data current_user now' = first.
Proof.
  intros first. subst first. rewrite (update_job_eq db).
  destruct (ObjectId job_id) as [oid|e] eqn:Hoid.
  2:{ cbn [fst]. by rewrite update_job_eq, Hoid. }
  destruct (job_by_id db oid) as [job|] eqn:Hjob.
  2:{ cbn [fst]. by rewrite update_job_eq, Hoid, Hjob. }
  destruct (authorized current_user job) as [[]|e] eqn:Hauth.
  2,3: cbn [fst]; by rewrite update_job_eq, Hoid, Hjob, Hauth.
  cbv zeta. cbn [fst]. rewrite update_job_eq, Hoid.
  rewrite job_by_id_set_jobs, decide_True, Hjob by done.
  cbn [fmap option_fmap option_map].
  rewrite authorized_set_fields, Hauth. cbv zeta. cbn [jobs set_jobs].
  pose proof (update_data_again job job_data now now') as Hsame. cbv zeta in Hsame.
  rewrite (update_one_unchanged _ _ _
             (Mongo.set_fields (update_data_of job job_data now) job)).
  - cbn [fst]. by rewrite set_jobs_set_jobs, (set_fields_same _ _ Hsame).
  - rewrite find_one_update_one, decide_True by done.
    unfold job_by_id in Hjob. by rewrite Hjob.
  - exact Hsame.
Qed.

End MoreJobs.


Section MoreMessages.

Lemma message_dict_lookup (from_id from_name to message : string) image_url (now : Z)
    (i : string) (d : dict) :
  d = <["id" := VStr i]>
        (list_to_map [("from_id", VStr from_id); ("from_name", VStr from_name);
                      ("to", VStr to); ("message", VStr message);
                      ("image_url", of_option image_url); ("timestamp", VDate now)]) →
  MessageResponse_init d
  = Ok {| m_id := i; m_from_id := from_id; m_from_name := from_name; m_to := to;
          m_message := message; m_image_url := image_url; m_timestamp := now |}.
Proof.
  intros ->.
  unfold MessageResponse_init, Pydantic.required_str, Pydantic.optional_str,
    Pydantic.required_datetime.
  cbn [list_to_map foldr].
  rewrite lookup_insert_eq.
  rewrite !(lookup_insert_ne _ "id") by done. rewrite lookup_insert_eq.
  rewrite !(lookup_insert_ne _ "from_id") by done. rewrite lookup_insert_eq.
  rewrite !(lookup_insert_ne _ "from_name") by done. rewrite lookup_insert_eq.
  rewrite !(lookup_insert_ne _ "to") by done. rewrite lookup_insert_eq.
  rewrite !(lookup_insert_ne _ "message") by done. rewrite lookup_insert_eq.
  rewrite !(lookup_insert_ne _ "image_url") by done. rewrite lookup_insert_eq.
  unfold mbind, result_bind. by destruct image_url.
Qed.

Lemma send_message_store db new_id now message_data current_user name :
  fields current_user !! "name" = Some (VStr name) →
  ∃ stored,
    (send_message db new_id now message_data current_user).1
    = set_messages (messages db ++ [stored]) db
    ∧ fields stored !! "to" = Some (VStr (mc_to message_data))
    ∧ fields stored !! "timestamp" = Some (VDate now).
Proof.
  intros Hname. unfold send_message, getitem. rewrite Hname.
  cbn [fst]. unfold Mongo.insert_one. eexists. split; [done|].
  cbn [fields list_to_map foldr].
  split; by rewrite ?lookup_insert_ne, lookup_insert_eq by done.
Qed.

(** X20.  Sending a message appends one message to the store and nothing
    else.  The sender recorded is always the caller (the request has no
    say in it), the time is the server's, and the answer describes what
    was stored.  A store whose messages were all presentable stays so:
    every channel can still be listed by everyone. *)
Theorem send_message_appends db new_id now message_data current_user name :
  fields current_user !! "name" = Some (VStr name) →
  let r := send_message db new_id now message_data current_user in
  ∃ stored,
    r.1 = set_messages (messages db ++ [stored]) db
    ∧ _id stored = new_id
    ∧ r.2 = MessageResponse_init (with_id stored)
    ∧ r.2 = Ok {| m_id := str new_id; m_from_id := str (_id current_user);
                  m_from_name := name; m_to := mc_to message_data;
                  m_message := mc_message message_data;
                  m_image_url := mc_image_url message_data; m_timestamp := now |}
    ∧ (Forall valid_message (messages db) →
       ∀ channel anyone, ∃ listed, get_messages r.1 channel anyone = Ok listed).
Proof.
  intros Hname r. subst r. unfold send_message, getitem. rewrite Hname.
  cbn [fst snd]. unfold Mongo.insert_one. eexists. split; [done|].
  cbn [_id]. split; [done|]. split; [done|].
  assert (∀ d, d = <["id" := VStr (str new_id)]>
                     (list_to_map
                        [("from_id", VStr (str (_id current_user)));
                         ("from_name", VStr name); ("to", VStr (mc_to message_data));
                         ("message", VStr (mc_message message_data));
                         ("image_url", of_option (mc_image_url message_data));
                         ("timestamp", VDate now)]) →
               MessageResponse_init d
               = Ok {| m_id := str new_id; m_from_id := str (_id current_user);
                       m_from_name := name; m_to := mc_to message_data;
                       m_message := mc_message message_data;
                       m_image_url := mc_image_url message_data;
                       m_timestamp := now |}) as Hok.
  { intros d Hd. by apply message_dict_lookup. }
  split; [by apply Hok|].
  intros Hvalid channel anyone. apply get_messages_valid. cbn [messages set_messages].
  apply Forall_app. split; [done|]. apply Forall_singleton.
  eexists. unfold with_id. cbn [_id fields]. by apply Hok.
Qed.

Lemma send_message_appends_witness :
  let r := send_message Sample.db (Oid "444444444444444444444444") 60
             {| mc_to := "team"; mc_message := "on site"; mc_image_url := None |}
             Sample.worker in
  ∃ stored,
    r.1 = set_messages (messages Sample.db ++ [stored]) Sample.db
    ∧ _id stored = Oid "444444444444444444444444"
    ∧ r.2 = MessageResponse_init (with_id stored)
    ∧ r.2 = Ok {| m_id := "444444444444444444444444";
                  m_from_id := "cccccccccccccccccccccccc"; m_from_name := "Wes";
                  m_to := "team"; m_message := "on site"; m_image_url := None;
                  m_timestamp := 60 |}
    ∧ (Forall valid_message (messages Sample.db) →
       ∀ channel anyone, ∃ listed, get_messages r.1 channel anyone = Ok listed).
Proof.
  exact (send_message_appends Sample.db (Oid "444444444444444444444444") 60
           {| mc_to := "team"; mc_message := "on site"; mc_image_url := None |}
           Sample.worker "Wes" eq_refl).
Defined.

Lemma Bson_le_trans v1 v2 v3 : Bson.le v1 v2 → Bson.le v2 v3 → Bson.le v1 v3.
Proof.
  unfold Bson.le.
  destruct v1 as [|a|a|a|a|a], v2 as [|b|b|b|b|b], v3 as [|c|c|c|c|c];
    cbn [Bson.leb Bson.type_rank]; try done.
  - rewrite !Qle_bool_iff. apply Qle_trans.
  - intros H1 H2. apply Is_true_true. apply Is_true_true in H1, H2.
    exact (transitivity (R := String.le) H1 H2).
  - intros H1 H2. apply Is_true_true. apply Is_true_true in H1, H2.
    exact (transitivity (R := String.le) H1 H2).
  - destruct a, b, c; done.
  - rewrite !Z.leb_le. lia.
Qed.

Global Instance sort_rel_trans key direction : Transitive (Mongo.sort_rel key direction).
Proof.
  intros d1 d2 d3. unfold Mongo.sort_rel.
  destruct (0 <=? direction)%Z; eauto using Bson_le_trans.
Qed.

(** In a sorted list, what is cut off comes after what is kept. *)
Lemma Sorted_take_drop {A} (R : relation A) `{!Transitive R} n l x y :
  Sorted R l → x ∈ take n l → y ∈ drop n l → R x y.
Proof.
  intros Hsorted%Sorted_StronglySorted; [|done].
  revert n. induction Hsorted as [|z l Hl IH Hz]; intros n Hx Hy.
  - rewrite take_nil in Hx. by apply elem_of_nil in Hx.
  - destruct n as [|n]; [by apply elem_of_nil in Hx|].
    cbn [take drop] in *. apply elem_of_cons in Hx as [->|Hx].
    + rewrite Forall_forall in Hz. apply Hz. by apply (subseteq_drop n l).
    + by apply (IH n).
Qed.

(** X21.  Messages are listed oldest first and cut after 1000, so what a
    full channel loses is its newest messages: the listed records are the
    oldest 1000 of the channel, and every message left out is at least
    as new as every record listed. *)
Theorem get_messages_drops_newest db channel current_user listed :
  get_messages db channel current_user = Ok listed →
  let selected :=
    if decide (channel = "team") then filter broadcast (messages db)
    else filter (exchanged (str (_id current_user)) channel) (messages db) in
  length listed = (length selected `min` 1000)%nat
  ∧ ∃ shown dropped,
      selected ≡ₚ (shown ++ dropped)%list
      ∧ Forall2 (λ d r, MessageResponse_init (with_id d) = Ok r) shown listed
      ∧ ∀ r d t,
          r ∈ listed → d ∈ dropped → fields d !! "timestamp" = Some (VDate t) →
          m_timestamp r ≤ t.
Proof.
  rewrite get_messages_shown. intros Hlisted selected. fold selected in Hlisted.
  apply traverse_Ok_inv in Hlisted. unfold Mongo.to_list in Hlisted.
  set (sorted := Mongo.sort "timestamp" 1 selected) in *.
  assert (sorted ≡ₚ selected) as Hperm by apply merge_sort_Permutation.
  assert (Sorted (Mongo.sort_rel "timestamp" 1) sorted) as Hsorted
    by apply (Sorted_merge_sort _).
  split.
  { rewrite <- (Forall2_length _ _ _ Hlisted), length_take, Hperm. lia. }
  exists (take 1000 sorted), (drop 1000 sorted).
  split; [by rewrite take_drop|]. split; [done|].
  intros r d t Hr Hd Ht.
  destruct (list_elem_of_lookup_1 _ _ Hr) as [i Hi].
  destruct (Forall2_lookup_r _ _ _ _ _ Hlisted Hi) as (x & Hx & Hinit).
  apply list_elem_of_lookup_2 in Hx.
  pose proof (Sorted_take_drop _ _ _ _ _ Hsorted Hx Hd) as Hle.
  apply MessageResponse_fields in Hinit as [Hts _].
  unfold Mongo.sort_rel, Mongo.sort_key, dict_get in Hle. rewrite Hts, Ht in Hle.
  cbn in Hle. unfold Bson.le in Hle. cbn in Hle. by apply Z.leb_le.
Qed.

Lemma get_messages_drops_newest_witness :
  ∃ listed,
    get_messages Sample.db "team" Sample.worker = Ok listed
    ∧ let selected :=
        if decide ("team" = "team") then filter broadcast (messages Sample.db)
        else filter (exchanged (str (_id Sample.worker)) "team") (messages Sample.db) in
      length listed = (length selected `min` 1000)%nat
      ∧ ∃ shown dropped,
          selected ≡ₚ (shown ++ dropped)%list
          ∧ Forall2 (λ d r, MessageResponse_init (with_id d) = Ok r) shown listed
          ∧ ∀ r d t,
              r ∈ listed → d ∈ dropped → fields d !! "timestamp" = Some (VDate t) →
              m_timestamp r ≤ t.
Proof.
  destruct (get_messages Sample.db "team" Sample.worker) as [listed|] eqn:E;
    [|vm_compute in E; discriminate E].
  exists listed. split; [reflexivity|].
  exact (get_messages_drops_newest Sample.db "team" Sample.worker listed E).
Defined.

Lemma broadcast_matches d :
  Mongo.matches (Mongo.Fields [("to", VStr "team")]) d = true ↔ broadcast d.
Proof.
  unfold broadcast. cbn [Mongo.matches Mongo.matches_fields forallb fst snd].
  rewrite andb_true_r. apply bool_decide_eq_true.
Qed.

(** X22.  Once the team channel holds 1000 messages, a message sent to it
    is stored but never listed: when the channel has 1000 or more
    messages, all older than the one being sent, the list of the channel
    after sending has only older messages. *)
Theorem send_message_full_channel db new_id now message_data current_user name
    anyone listed :
  fields current_user !! "name" = Some (VStr name) →
  mc_to message_data = "team" →
  (1000 ≤ length (filter broadcast (messages db)))%nat →
  Forall (λ d, ∃ t, fields d !! "timestamp" = Some (VDate t) ∧ t < now)
         (filter broadcast (messages db)) →
  get_messages (send_message db new_id now message_data current_user).1 "team" anyone
  = Ok listed →
  length listed = 1000%nat ∧ Forall (λ r, m_timestamp r < now) listed.
Proof.
  intros Hname Hto Hfull Hold Hlisted.
  destruct (send_message_store db new_id now message_data current_user name Hname)
    as (stored & Hstore & Hstored_to & Hstored_ts).
  rewrite Hstore in Hlisted. clear Hstore.
  apply get_messages_drops_newest in Hlisted. cbv zeta in Hlisted.
  rewrite decide_True in Hlisted by done. cbn [messages set_messages] in Hlisted.
  rewrite filter_app in Hlisted.
  assert (filter broadcast [stored] = [stored]) as Hnew.
  { rewrite filter_cons_True; [done|]. unfold broadcast. by rewrite Hstored_to, Hto. }
  rewrite Hnew in Hlisted. set (old := filter broadcast (messages db)) in *.
  destruct Hlisted as (Hlen & shown & dropped & Hperm & Hshown & Horder).
  rewrite length_app in Hlen. cbn [length] in Hlen.
  assert (length listed = 1000%nat) as Hlen' by lia.
  split; [done|].
  assert (length shown = 1000%nat) as Hshown_len
    by by rewrite (Forall2_length _ _ _ Hshown).
  assert (dropped ≠ []) as Hdropped.
  { intros ->. apply Permutation_length in Hperm.
    rewrite !length_app in Hperm. cbn [length] in Hperm. lia. }
  assert (∀ x, x ∈ old → ∃ t, fields x !! "timestamp" = Some (VDate t) ∧ t < now)
    as Hold'.
  { by apply Forall_forall. }
  assert (stored ∉ old) as Hfresh.
  { intros (t & Ht & Hlt)%Hold'. rewrite Hstored_ts in Ht. injection Ht as <-. lia. }
  apply Forall_forall. intros r Hr.
  destruct (list_elem_of_lookup_1 _ _ Hr) as [i Hi].
  destruct (Forall2_lookup_r _ _ _ _ _ Hshown Hi) as (x & Hx & Hinit).
  apply list_elem_of_lookup_2 in Hx.
  apply MessageResponse_fields in Hinit as [Hts _].
  assert (x ∈ (old ++ [stored])%list) as Hx'.
  { rewrite Hperm. apply elem_of_app. by left. }
  apply elem_of_app in Hx' as [Hx'|Hx'].
  { destruct (Hold' x Hx') as (t & Ht & Hlt). rewrite Hts in Ht. by injection Ht as ->. }
  apply list_elem_of_singleton in Hx' as ->.
  destruct dropped as [|d dropped]; [done|].
  assert (d ∈ (old ++ [stored])%list) as Hd.
  { rewrite Hperm. apply elem_of_app. right. by left. }
  apply elem_of_app in Hd as [Hd|Hd].
  { destruct (Hold' d Hd) as (t & Ht & Hlt).
    pose proof (Horder r d t Hr ltac:(by left) Ht). lia. }
  apply list_elem_of_singleton in Hd as ->.
  exfalso. apply Hfresh.
  destruct (list_elem_of_split _ _ Hx) as (s1 & s2 & ->).
  assert (stored :: old ≡ₚ stored :: (s1 ++ s2 ++ stored :: dropped)%list) as Hp.
  { rewrite (Permutation_cons_append old stored), Hperm.
    rewrite <- app_assoc. cbn [app]. symmetry. apply Permutation_middle. }
  apply Permutation_cons_inv in Hp. rewrite Hp.
  apply elem_of_app. right. apply elem_of_app. right. by left.
Qed.

Lemma team_message_fields n :
  fields (Channel.team_message n) !! "to" = Some (VStr "team")
  ∧ fields (Channel.team_message n) !! "timestamp" = Some (VDate (Z.of_nat n))
  ∧ valid_message (Channel.team_message n).
Proof.
  unfold Channel.team_message, Sample.message_doc, valid_message, with_id.
  cbn [fields _id]. split; [|split].
  - cbn [list_to_map foldr]. by rewrite !lookup_insert_ne, lookup_insert_eq by done.
  - cbn [list_to_map foldr]. by rewrite !lookup_insert_ne, lookup_insert_eq by done.
  - eexists.
    exact (message_dict_lookup (str Sample.worker_id) "Wes" "team" "hello" None
             (Z.of_nat n) (str (Channel.numbered_id n)) _ eq_refl).
Qed.

Lemma filter_Forall_id {A} (P : A → Prop) `{!∀ x, Decision (P x)} l :
  Forall P l → filter P l = l.
Proof.
  induction 1 as [|x l Hx _ IH]; [done|]. by rewrite filter_cons_True, IH.
Qed.

Lemma full_channel_messages :
  filter broadcast (messages Channel.full) = Channel.team_message <$> seq 0 1000.
Proof.
  cbn [messages Channel.full set_messages]. apply filter_Forall_id.
  apply Forall_fmap, Forall_forall. intros n _. apply team_message_fields.
Qed.

Lemma full_channel_valid : Forall valid_message (messages Channel.full).
Proof.
  cbn [messages Channel.full set_messages].
  apply Forall_fmap, Forall_forall. intros n _. apply team_message_fields.
Qed.

Lemma full_channel_old :
  Forall (λ d, ∃ t, fields d !! "timestamp" = Some (VDate t) ∧ t < 5000)
         (filter broadcast (messages Channel.full)).
Proof.
  rewrite full_channel_messages.
  apply Forall_fmap, Forall_forall. intros n Hn%elem_of_seq. cbn [compose].
  exists (Z.of_nat n). split; [apply team_message_fields|lia].
Qed.

Lemma full_channel_length :
  (1000 ≤ length (filter broadcast (messages Channel.full)))%nat.
Proof. by rewrite full_channel_messages, length_fmap, length_seq. Qed.

Lemma send_message_full_channel_witness :
  ∃ listed,
    get_messages
      (send_message Channel.full (Oid "444444444444444444444444") 5000 Channel.late
         Sample.worker).1 "team" Sample.admin = Ok listed
    ∧ length listed = 1000%nat ∧ Forall (λ r, m_timestamp r < 5000) listed.
Proof.
  destruct (send_message_appends Channel.full (Oid "444444444444444444444444") 5000
              Channel.late Sample.worker "Wes" eq_refl)
    as (stored & _ & _ & _ & _ & Hlists).
  destruct (Hlists full_channel_valid "team" Sample.admin) as [listed Hlisted].
  exists listed. split; [exact Hlisted|].
  exact (send_message_full_channel Channel.full (Oid "444444444444444444444444") 5000
           Channel.late Sample.worker "Wes" Sample.admin listed eq_refl eq_refl
           full_channel_length full_channel_old Hlisted).
Defined.

End MoreMessages.


Section Photos.

Lemma photo_dict_lookup (job_id user_id : string) (user_name : value)
    (image : string) (caption : option string) (now : Z) (d : dict) :
  d = list_to_map [("job_id", VStr job_id); ("user_id", VStr user_id);
                   ("user_name", user_name); ("image_base64", VStr image);
                   ("caption", of_option caption); ("uploaded_at", VDate now)] →
  d !! "id" = None
  ∧ d !! "job_id" = Some (VStr job_id) ∧ d !! "user_id" = Some (VStr user_id)
  ∧ d !! "user_name" = Some user_name ∧ d !! "image_base64" = Some (VStr image)
  ∧ d !! "caption" = Some (of_option caption) ∧ d !! "uploaded_at" = Some (VDate now).
Proof.
  intros ->. cbn [list_to_map foldr].
  split; [by rewrite !lookup_insert_ne by done|].
  repeat split; by rewrite ?lookup_insert_ne, lookup_insert_eq by done.
Qed.

Ltac photo_entries new_id :=
  match goal with
  | |- context [Doc new_id ?m] =>
      let Hd := fresh "Hd" in
      pose proof (photo_dict_lookup _ _ _ _ _ _ m eq_refl) as Hd;
      revert Hd; generalize m
  end.

Lemma required_str_Ok kw k s :
  Pydantic.required_str kw k = Ok s → kw !! k = Some (VStr s).
Proof. unfold Pydantic.required_str. intros H. repeat case_match; congruence. Qed.

Lemma required_datetime_Ok kw k t :
  Pydantic.required_datetime kw k = Ok t → kw !! k = Some (VDate t).
Proof. unfold Pydantic.required_datetime. intros H. repeat case_match; congruence. Qed.

Lemma required_str_raise kw k e :
  Pydantic.required_str kw k = Raise e → e = Uncaught "ValidationError".
Proof. unfold Pydantic.required_str. intros H. repeat case_match; congruence. Qed.

Lemma required_datetime_raise kw k e :
  Pydantic.required_datetime kw k = Raise e → e = Uncaught "ValidationError".
Proof. unfold Pydantic.required_datetime. intros H. repeat case_match; congruence. Qed.

Lemma PhotoResponse_init_inv kw r :
  PhotoResponse_init kw = Ok r →
  kw !! "id" = Some (VStr (p_id r)) ∧ kw !! "job_id" = Some (VStr (p_job_id r))
  ∧ kw !! "user_id" = Some (VStr (p_user_id r))
  ∧ kw !! "user_name" = Some (VStr (p_user_name r))
  ∧ kw !! "image_base64" = Some (VStr (p_image_base64 r))
  ∧ kw !! "caption" = Some (VStr (p_caption r))
  ∧ kw !! "uploaded_at" = Some (VDate (p_uploaded_at r)).
Proof.
  unfold PhotoResponse_init, mbind, result_bind. intros H.
  repeat match type of H with
         | match ?x with Ok _ => _ | Raise _ => _ end = Ok _ =>
             let E := fresh "E" in destruct x eqn:E; [|discriminate H]
         end.
  injection H as <-. cbn [p_id p_job_id p_user_id p_user_name p_image_base64 p_caption
                          p_uploaded_at].
  repeat split; by (apply required_str_Ok || apply required_datetime_Ok).
Qed.

Lemma PhotoResponse_init_raise kw e :
  PhotoResponse_init kw = Raise e → e = Uncaught "ValidationError".
Proof.
  unfold PhotoResponse_init, mbind, result_bind. intros H.
  repeat match type of H with
         | match ?x with Ok _ => _ | Raise _ => _ end = Raise _ =>
             let E := fresh "E" in
             destruct x eqn:E;
             [|injection H as Heq; subst;
               first [by eapply required_str_raise|by eapply required_datetime_raise]]
         end.
  discriminate H.
Qed.

Lemma upload_photo_eq db new_id now photo_data current_user :
  upload_photo db new_id now photo_data current_user
  = match ObjectId (pu_job_id photo_data) with
    | Raise e => (db, Raise e)
    | Ok oid =>
        match job_by_id db oid with
        | None => (db, Raise (HTTPException 404 "Job not found"))
        | Some _ =>
            match fields current_user !! "name" with
            | None => (db, Raise (Uncaught "KeyError"))
            | Some user_name =>
                let stored :=
                  Doc new_id
                    (list_to_map
                       [("job_id", VStr (pu_job_id photo_data));
                        ("user_id", VStr (str (_id current_user)));
                        ("user_name", user_name);
                        ("image_base64", VStr (pu_image_base64 photo_data));
                        ("caption", of_option (pu_caption photo_data));
                        ("uploaded_at", VDate now)]) in
                (set_photos (photos db ++ [stored]) db,
                 PhotoResponse_init (with_id stored))
            end
        end
    end.
Proof.
  unfold upload_photo, job_by_id, getitem.
  destruct (ObjectId _) as [oid|]; [|done].
  destruct (Mongo.find_one _ _); [|done].
  by destruct (fields current_user !! "name").
Qed.




Lemma traverse_Raise {A B} (f : A → result B) (e : exn) l x :
  x ∈ l → f x = Raise e → (∀ y e', f y = Raise e' → e' = e) →
  traverse f l = Raise e.
Proof.
  intros Hx Hfx Hall. induction l as [|y l IH]; [by apply elem_of_nil in Hx|].
  cbn [traverse]. unfold mbind, result_bind.
  destruct (f y) as [b|e'] eqn:Hy; [|by rewrite (Hall _ _ Hy)].
  apply elem_of_cons in Hx as [->|Hx]; [congruence|].
  fold (traverse f l). by rewrite (IH Hx).
Qed.

(** X24.  An upload whose caption is null is stored and then answered
    with 500, because the response model wants a string.  From then on
    the photo list of that job fails with 500 for everyone (as long as the
    job has fewer than 1000 photos, so that the new one is among those
    shown). *)
Theorem upload_photo_null_caption db new_id now photo_data current_user oid job name :
  ObjectId (pu_job_id photo_data) = Ok oid → job_by_id db oid = Some job →
  fields current_user !! "name" = Some (VStr name) →
  pu_caption photo_data = None →
  let r := upload_photo db new_id now photo_data current_user in
  r.2 = Raise (Uncaught "ValidationError")
  ∧ (∃ stored, photos r.1 = (photos db ++ [stored])%list ∧ _id stored = new_id)
  ∧ ((length (Mongo.find (Mongo.Fields [("job_id", VStr (pu_job_id photo_data))])
                (photos db)) < 1000)%nat →
     ∀ anyone,
       get_job_photos r.1 (pu_job_id photo_data) anyone
       = Raise (Uncaught "ValidationError")).
Proof.
  intros Hoid Hjob Hname Hcaption r. subst r.
  rewrite upload_photo_eq, Hoid, Hjob, Hname, Hcaption. cbv zeta.
  photo_entries new_id. intros d (Hid & Hjob_id & _ & _ & _ & Hcap & _).
  cbn [fst snd photos set_photos].
  assert (PhotoResponse_init (with_id (Doc new_id d)) = Raise (Uncaught "ValidationError"))
    as Hraise.
  { destruct (PhotoResponse_init _) as [r|e] eqn:Hinit;
      [|by rewrite (PhotoResponse_init_raise _ _ Hinit)].
    apply PhotoResponse_init_inv in Hinit as (_ & _ & _ & _ & _ & H6 & _).
    unfold with_id in H6. cbn [_id fields] in H6.
    rewrite lookup_insert_ne, Hcap in H6 by done. done. }
  split; [done|]. split; [by eexists|].
  intros Hlen anyone. unfold get_job_photos. cbn [photos set_photos].
  apply (traverse_Raise _ _ _ (Doc new_id d)); [|done|].
  2:{ intros y e'. apply PhotoResponse_init_raise. }
  unfold Mongo.to_list. rewrite take_ge.
  - unfold Mongo.sort. rewrite merge_sort_Permutation, find_app.
    apply elem_of_app. right. unfold Mongo.find.
    cbn [List.filter Mongo.matches Mongo.matches_fields forallb fst snd fields].
    rewrite Hjob_id, bool_decide_eq_true_2 by done. by left.
  - unfold Mongo.sort. rewrite merge_sort_Permutation, find_app, length_app.
    unfold Mongo.find at 2.
    cbn [List.filter Mongo.matches Mongo.matches_fields forallb fst snd fields].
    rewrite Hjob_id, bool_decide_eq_true_2 by done. cbn [andb length]. lia.
Qed.

Lemma upload_photo_null_caption_witness :
  let r := upload_photo Site.db (Oid "555555555555555555555555") 60 Site.no_caption
             Sample.worker in
  r.2 = Raise (Uncaught "ValidationError")
  ∧ (∃ stored,
       photos r.1 = (photos Site.db ++ [stored])%list
       ∧ _id stored = Oid "555555555555555555555555")
  ∧ ((length (Mongo.find (Mongo.Fields [("job_id", VStr "00000000000000000000000a")])
                (photos Site.db)) < 1000)%nat →
     ∀ anyone,
       get_job_photos r.1 "00000000000000000000000a" anyone
       = Raise (Uncaught "ValidationError")).
Proof.
  exact (upload_photo_null_caption Site.db (Oid "555555555555555555555555") 60
           Site.no_caption Sample.worker Site.job_id _ "Wes"
           eq_refl eq_refl eq_refl eq_refl).
Defined.

End Photos.

Section Dashboard.

Lemma count_le q1 q2 c :
  (∀ d, Mongo.matches q1 d = true → Mongo.matches q2 d = true) →
  (count_documents q1 c ≤ count_documents q2 c)%nat.
Proof.
  intros Himp. unfold count_documents, Mongo.find.
  induction c as [|d c IH]; [done|]. cbn [List.filter].
  destruct (Mongo.matches q1 d) eqn:H1.
  - rewrite (Himp _ H1). cbn [length]. lia.
  - destruct (Mongo.matches q2 d); cbn [length]; lia.
Qed.

Lemma count_all c : count_documents (Mongo.Fields []) c = length c.
Proof. unfold count_documents. by rewrite find_all. Qed.

Lemma count_three k v1 v2 v3 c :
  v1 ≠ v2 → v1 ≠ v3 → v2 ≠ v3 →
  (count_documents (Mongo.Fields [(k, v1)]) c
   + count_documents (Mongo.Fields [(k, v2)]) c
   + count_documents (Mongo.Fields [(k, v3)]) c ≤ length c)%nat.
Proof.
  intros H12 H13 H23. unfold count_documents, Mongo.find.
  induction c as [|d c IH]; [done|].
  cbn [List.filter Mongo.matches Mongo.matches_fields forallb fst snd].
  rewrite !andb_true_r.
  destruct (decide (fields d !! k = Some v1)) as [E|E].
  - rewrite (bool_decide_eq_true_2 _ E).
    rewrite !bool_decide_eq_false_2 by congruence. cbn [length]. lia.
  - rewrite (bool_decide_eq_false_2 _ E).
    destruct (decide (fields d !! k = Some v2)) as [E2|E2].
    + rewrite (bool_decide_eq_true_2 _ E2).
      rewrite !bool_decide_eq_false_2 by congruence. cbn [length]. lia.
    + rewrite (bool_decide_eq_false_2 _ E2).
      destruct (bool_decide (fields d !! k = Some v3)); cbn [length]; lia.
Qed.

(** X25.  The figures an admin gets are consistent with the store:
    the totals are the numbers of stored jobs and users, and the pending,
    active and completed jobs together are at most the total (they fall
    short of it by the jobs in any other status).  Personal figures are
    not part of the answer. *)
Theorem dashboard_admin db admin stats :
  fields admin !! "role" = Some (VStr "admin") →
  get_dashboard_stats db admin = Ok stats →
  stats !! "total_jobs" = Some (length (jobs db))
  ∧ stats !! "total_users" = Some (length (users db))
  ∧ (∃ pending active completed,
       stats !! "pending_jobs" = Some pending
       ∧ stats !! "active_jobs" = Some active
       ∧ stats !! "completed_jobs" = Some completed
       ∧ (pending + active + completed ≤ length (jobs db))%nat)
  ∧ (∃ waiting,
       stats !! "pending_timesheets" = Some waiting
       ∧ (waiting ≤ length (timesheets db))%nat)
  ∧ stats !! "my_jobs" = None.
Proof.
  intros Hrole. unfold get_dashboard_stats, getitem. rewrite Hrole.
  unfold mbind, result_bind. rewrite bool_decide_eq_true_2 by done.
  intros [= <-]. cbn [list_to_map foldr]. rewrite !count_all.
  split; [by rewrite lookup_insert_eq|].
  split; [by rewrite !lookup_insert_ne, lookup_insert_eq by done|].
  split.
  { eexists _, _, _.
    split; [by rewrite !lookup_insert_ne, lookup_insert_eq by done|].
    split; [by rewrite !lookup_insert_ne, lookup_insert_eq by done|].
    split; [by rewrite !lookup_insert_ne, lookup_insert_eq by done|].
    by apply count_three. }
  split.
  { eexists. split; [by rewrite !lookup_insert_ne, lookup_insert_eq by done|].
    rewrite <- count_all. by apply count_le. }
  by rewrite !lookup_insert_ne by done.
Qed.

Lemma dashboard_admin_witness :
  ∃ stats,
    get_dashboard_stats Sample.db Sample.admin = Ok stats
    ∧ stats !! "total_jobs" = Some (length (jobs Sample.db))
    ∧ stats !! "total_users" = Some (length (users Sample.db))
    ∧ (∃ pending active completed,
         stats !! "pending_jobs" = Some pending
         ∧ stats !! "active_jobs" = Some active
         ∧ stats !! "completed_jobs" = Some completed
         ∧ (pending + active + completed ≤ length (jobs Sample.db))%nat)
    ∧ (∃ waiting,
         stats !! "pending_timesheets" = Some waiting
         ∧ (waiting ≤ length (timesheets Sample.db))%nat)
    ∧ stats !! "my_jobs" = None.
Proof.
  eexists. split; [reflexivity|].
  exact (dashboard_admin Sample.db Sample.admin _ eq_refl eq_refl).
Defined.



End Dashboard.

Section Approval.

Lemma update_one_Forall2 q upd c :
  Forall2 (λ before after, after = before ∨ after = Mongo.set_fields upd before)
          c (Mongo.update_one q upd c).1.
Proof.
  induction c as [|d c IH]; [constructor|]. cbn [Mongo.update_one].
  destruct (Mongo.matches q d).
  - cbn [fst]. constructor; [by right|].
    apply Forall_Forall2_diag, Forall_forall. intros x _. by left.
  - destruct (Mongo.update_one q upd c) as [c' r]. cbn [fst] in *.
    constructor; [by left|done].
Qed.

(** X27.  What approving can and cannot do.  Whatever the request and
    whoever the caller, users, jobs, messages and photos are untouched and
    the timesheets keep their number, order and ids; a timesheet is either
    as it was or now approved with every other field as before, so hours
    are never altered and no timesheet loses its approval.  A caller who
    is neither admin nor supervisor is refused with 403 and changes
    nothing, whatever the id. *)
Theorem approve_timesheet_frame db timesheet_id current_user :
  let r := approve_timesheet db timesheet_id current_user in
  users r.1 = users db ∧ jobs r.1 = jobs db
  ∧ messages r.1 = messages db ∧ photos r.1 = photos db
  ∧ Forall2
      (λ before after,
         _id after = _id before
         ∧ (∀ k, k ≠ "approved" → fields after !! k = fields before !! k)
         ∧ (fields after !! "approved" = fields before !! "approved"
            ∨ fields after !! "approved" = Some (VBool true)))
      (timesheets db) (timesheets r.1)
  ∧ (∀ role,
       fields current_user !! "role" = Some role → ¬ elevated role →
       r = (db, Raise (HTTPException 403 "Not authorized"))).
Proof.
  intros r. subst r.
  assert (Forall2
            (λ before after : document,
               _id after = _id before
               ∧ (∀ k, k ≠ "approved" → fields after !! k = fields before !! k)
               ∧ (fields after !! "approved" = fields before !! "approved"
                  ∨ fields after !! "approved" = Some (VBool true)))
            (timesheets db) (timesheets db)) as Hsame.
  { apply Forall_Forall2_diag, Forall_forall. intros x _. by auto. }
  unfold approve_timesheet, getitem.
  destruct (fields current_user !! "role") as [role|] eqn:Hrole.
  2:{ cbn [fst]. repeat split; try done. }
  destruct (is_elevated role) eqn:Hel; cbn [negb].
  2:{ cbn [fst]. repeat split; try done. }
  assert (∀ role', Some role = Some role' → ¬ elevated role' → False) as Hno.
  { intros role' [= <-] Hnot. by apply Hnot, is_elevated_spec. }
  destruct (ObjectId timesheet_id) as [oid|].
  2:{ cbn [fst]. repeat split; try done. intros ???. by exfalso; eauto. }
  pose proof (update_one_Forall2 (Mongo.ById oid) {["approved" := VBool true]}
                (timesheets db)) as Hupd.
  destruct (Mongo.update_one _ _ (timesheets db)) as [timesheets' result].
  cbn [fst] in Hupd.
  assert (Forall2
            (λ before after : document,
               _id after = _id before
               ∧ (∀ k, k ≠ "approved" → fields after !! k = fields before !! k)
               ∧ (fields after !! "approved" = fields before !! "approved"
                  ∨ fields after !! "approved" = Some (VBool true)))
            (timesheets db) timesheets') as Hframe.
  { eapply Forall2_impl; [exact Hupd|]. intros before after [->| ->]; [by auto|].
    cbn [Mongo.set_fields _id fields]. split; [done|]. split.
    - intros k Hk. by rewrite lookup_union_r by by apply lookup_singleton_ne.
    - right. apply lookup_union_Some_l, lookup_singleton_eq. }
  destruct (Mongo.modified_count result =? 0)%nat; cbn [fst];
    cbn [users jobs timesheets messages photos set_timesheets];
    (repeat split; try done); intros ???; by exfalso; eauto.
Qed.

End Approval.
